(** * The NetApp Cloud Volumes client of the Terraform provider

    A shallow embedding of the REST request builder
    (gcp/cvs/restapi/request.go) and of the volume operations of the
    provider's [gcp] package, followed by the properties the specification
    states about them.

    Go's [int] is kept as [Z]: the code only compares such values or counts
    the items of a slice, so no operation reaches the 64-bit bound.  A
    [[]byte] response body is kept as the [string] of its bytes.  A Go
    function that returns [(value, error)] returns here either a [result]
    (when every failing return carries a non-nil error) or the pair itself
    with an [option error] (when the code can hand back a nil error next to
    a zero value). *)

From stdpp Require Import base strings list gmap.
From Stdlib Require Import ZArith Lia.

Local Open Scope Z_scope.

Definition bytes : Type := string.

(** ** Errors

    [fmt.Errorf] keeps its format and operands as written in the source;
    [errorString] stands for an error value made by a package outside these
    files (the JSON decoder, the transport, the response checker). *)
Inductive error : Type :=
| errorString (text : string)
| fmt_Errorf (format : string) (a : list operand)
with operand : Type :=
| OpStr (s : string)
| OpInt (z : Z)
| OpErr (e : error).

Inductive result (A : Type) : Type :=
| Success (a : A)
| Failure (err : error).
Arguments Success {A} a.
Arguments Failure {A} err.

Definition result_bind {A B : Type} (r : result A) (k : A -> result B) : result B :=
  match r with
  | Success a => k a
  | Failure err => Failure err
  end.

(** [wrap format r]: the idiom [if err != nil { return nil, fmt.Errorf(format, err) }]. *)
Definition wrap {A : Type} (format : string) (r : result A) : result A :=
  match r with
  | Success a => Success a
  | Failure err => Failure (fmt_Errorf format [OpErr err])
  end.

Notation "x <-? e ; k" := (result_bind e (fun x => k))
  (at level 100, e at next level, k at level 200, right associativity).

(** ** The text of an error

    [fmt.Errorf(format)] with no operand prints the format as it is up to
    each percent sign: a doubled percent sign prints one, a verb that finds
    no operand prints itself between the marks of a missing operand, and a
    percent sign that ends the format prints the mark of a missing verb.
    Flags, widths, precisions and argument indexes after a percent sign
    are not followed here: the text of such a format is [None]. *)
Definition percent : Ascii.ascii := Ascii.ascii_of_nat 37%nat.

Definition isLetter (c : Ascii.ascii) : bool :=
  let n := Ascii.nat_of_ascii c in
  ((65 <=? n)%nat && (n <=? 90)%nat) || ((97 <=? n)%nat && (n <=? 122)%nat).

Fixpoint Sprintf0 (format : string) : option string :=
  match format with
  | EmptyString => Some EmptyString
  | String c rest =>
      if Ascii.eqb c percent then
        match rest with
        | EmptyString => Some "%!(NOVERB)"
        | String verb rest' =>
            if Ascii.eqb verb percent then String percent <$> Sprintf0 rest'
            else if isLetter verb then
              (fun printed => "%!" +:+ String verb ("(MISSING)" +:+ printed))
                <$> Sprintf0 rest'
            else None
        end
      else String c <$> Sprintf0 rest
  end.

(** [err.Error()]: the text of an error made elsewhere is the text it was
    given; the text of [fmt.Errorf] with operands is not followed. *)
Definition errorText (err : error) : option string :=
  match err with
  | errorString text => Some text
  | fmt_Errorf format [] => Sprintf0 format
  | fmt_Errorf _ (_ :: _) => None
  end.

(** A text without a percent sign. *)
Fixpoint plain (text : string) : bool :=
  match text with
  | EmptyString => true
  | String c rest => negb (Ascii.eqb c percent) && plain rest
  end.

(** ** net/http requests, as far as BuildHTTPReq touches them *)
Module http.

(** The URL of a request is the one http.NewRequest derives from the text
    it is given (url.Parse, then the host without an empty port).  Its
    printed form may differ from that text, so it is a value of its own,
    known only by the text it comes from. *)
Inductive ParsedURL : Type := Parse (rawurl : string).

Record Request : Type := mkRequest {
  Method : string;
  URL : ParsedURL;
  Body : option bytes;
  Header : gmap string (list string);
}.

(** [req.Header.Set(key, value)] replaces whatever the key held by the one
    value.  The two keys the builder sets are already in canonical form. *)
Definition Header_Set (key value : string) (req : Request) : Request :=
  {| Method := Method req; URL := URL req; Body := Body req;
     Header := <[key := [value]]> (Header req) |}.

Section NewRequest.
(** What [http.NewRequest] refuses: a method that is no token, a URL that
    does not parse. *)
Variable refuse : string -> string -> option error.

(** A fresh request has an empty header; an empty method means GET. *)
Definition NewRequest (method url : string) (body : option bytes) : result Request :=
  match refuse method url with
  | Some err => Failure err
  | None =>
      Success {| Method := (if decide (method = "") then "GET" else method);
                 URL := Parse url; Body := body; Header := ∅ |}
  end.
End NewRequest.

End http.

(** ** Package restapi: request.go *)
Module restapi.

Record Request (P : Type) : Type := mkRequest {
  Method : string;
  Params : P;
}.
Arguments mkRequest {P} _ _.
Arguments Method {P} _.
Arguments Params {P} _.

(** The collaborators of the builder: the JSON encoder, the checks of
    [http.NewRequest], the file system, and the token issuer. *)
Class Collaborators (P : Type) : Type := {
  json_Marshal : P -> result bytes;
  refuse : string -> string -> option error;
  ioutil_ReadFile : string -> result bytes;
  TokenSource : Type;
  google_JWTAccessTokenSourceFromJSON : bytes -> string -> result TokenSource;
  Token : TokenSource -> result string;
}.

Section BuildHTTPReq.
Context {P : Type} {issuer : Collaborators P}.

(** The key material: the inline credentials when given, else the file. *)
Definition keyMaterial (serviceAccount credentials : string) : result bytes :=
  if decide (credentials <> "") then Success credentials
  else wrap "Unable to read service account key file  %v" (ioutil_ReadFile serviceAccount).

(** The access token of the JWT the builder asks for: lines 49 to 56. *)
Definition mintedToken (keyBytes : bytes) (audience : string) : result string :=
  tokenSource <-? wrap "Error building JWT access token source: %v"
                    (google_JWTAccessTokenSourceFromJSON keyBytes audience);
  wrap "Unable to generate JWT token: %v" (Token tokenSource).

Definition BuildHTTPReq (r : Request P)
    (host serviceAccount credentials audience baseURL : string) : result http.Request :=
  let url := host +:+ baseURL in
  req <-? (if decide (Method r <> "GET" /\ Method r <> "DELETE") then
             bodyJSON <-? json_Marshal (Params r);
             http.NewRequest refuse (Method r) url (Some bodyJSON)
           else http.NewRequest refuse (Method r) url None);
  keyBytes <-? keyMaterial serviceAccount credentials;
  jwt <-? mintedToken keyBytes audience;
  Success (http.Header_Set "Authorization" ("Bearer " +:+ jwt)
             (http.Header_Set "Content-Type" "application/json" req)).

End BuildHTTPReq.

End restapi.

(** ** Package gcp: the data model of the volume operations

    Each Go struct is a record in a module of its name, so that the fields
    keep the names they have in the source. *)

Definition contextDeadlineExceededErrorMessage : string :=
  "Post http://cloud-volumes-service.sde.svc.cluster.local/v2/Volumes: context deadline exceeded".
Definition spawnJobCreationErrorMessage : string :=
  "Error creating volume - Cannot spawn additional jobs. Please wait for the ongoing jobs to finish and try again".
Definition spawnJobDeletionErrorMessage : string :=
  "Error deleting volume - Cannot spawn additional jobs. Please wait for the ongoing jobs to finish and try again".

Module dailySchedule.
Record t : Type := mk { Hour : Z; Minute : Z; SnapshotsToKeep : Z }.
Definition zero : t := mk 0 0 0.
End dailySchedule.

Module hourlySchedule.
Record t : Type := mk { Minute : Z; SnapshotsToKeep : Z }.
Definition zero : t := mk 0 0.
End hourlySchedule.

Module monthlySchedule.
Record t : Type := mk { DaysOfMonth : string; Hour : Z; Minute : Z; SnapshotsToKeep : Z }.
Definition zero : t := mk "" 0 0 0.
End monthlySchedule.

Module weeklySchedule.
Record t : Type := mk { Day : string; Hour : Z; Minute : Z; SnapshotsToKeep : Z }.
Definition zero : t := mk "" 0 0 0.
End weeklySchedule.

Module snapshotPolicy.
Record t : Type := mk {
  Enabled : bool;
  DailySchedule : dailySchedule.t;
  HourlySchedule : hourlySchedule.t;
  MonthlySchedule : monthlySchedule.t;
  WeeklySchedule : weeklySchedule.t;
}.
Definition zero : t :=
  mk false dailySchedule.zero hourlySchedule.zero monthlySchedule.zero weeklySchedule.zero.
End snapshotPolicy.

Module nfs.
Record t : Type := mk { Checked : bool }.
End nfs.

Module exportPolicyRule.
Record t : Type := mk {
  Access : string;
  AllowedClients : string;
  Nfsv3 : nfs.t;
  Nfsv4 : nfs.t;
}.
End exportPolicyRule.

Module exportPolicy.
Record t : Type := mk { Rules : list exportPolicyRule.t }.
Definition zero : t := mk [].
End exportPolicy.

Module mountPoints.
Record t : Type := mk { Export : string; Server : string; ProtocolType : string }.
End mountPoints.

(** volumeRequest: the users input for creating, requesting, updating a volume. *)
Module volumeRequest.
Record t : Type := mk {
  Name : string;
  Region : string;
  CreationToken : string;
  ProtocolTypes : list string;
  Network : string;
  Size : Z;
  ServiceLevel : string;
  SnapshotPolicy : snapshotPolicy.t;
  ExportPolicy : exportPolicy.t;
  VolumeID : string;
  Zone : string;
  StorageClass : string;
  SharedVpcProjectNumber : string;
}.

(** [request.CreationToken = v] and [request.Network = v] through the
    pointer the caller passed: every other field is copied. *)
Definition set_CreationToken (v : string) (r : t) : t :=
  mk (Name r) (Region r) v (ProtocolTypes r) (Network r) (Size r) (ServiceLevel r)
     (SnapshotPolicy r) (ExportPolicy r) (VolumeID r) (Zone r) (StorageClass r)
     (SharedVpcProjectNumber r).
Definition set_Network (v : string) (r : t) : t :=
  mk (Name r) (Region r) (CreationToken r) (ProtocolTypes r) v (Size r) (ServiceLevel r)
     (SnapshotPolicy r) (ExportPolicy r) (VolumeID r) (Zone r) (StorageClass r)
     (SharedVpcProjectNumber r).
End volumeRequest.

(** volumeResult: the volume attributes as the API reports them. *)
Module volumeResult.
Record t : Type := mk {
  Name : string;
  Region : string;
  CreationToken : string;
  ProtocolTypes : list string;
  Network : string;
  Size : Z;
  ServiceLevel : string;
  SnapshotPolicy : snapshotPolicy.t;
  ExportPolicy : exportPolicy.t;
  VolumeID : string;
  LifeCycleState : string;
  LifeCycleStateDetails : string;
  MountPoints : list mountPoints.t;
  Zone : string;
  StorageClass : string;
}.
(** [volumeResult{}] *)
Definition zero : t :=
  mk "" "" "" [] "" 0 "" snapshotPolicy.zero exportPolicy.zero "" "" "" [] "" "".
End volumeResult.

Module listVolumeIDResult.
Record t : Type := mk { VolID : string }.
End listVolumeIDResult.

Module listVolumeJobIDResult.
Record t : Type := mk { JobID : listVolumeIDResult.t }.
End listVolumeJobIDResult.

(** createVolumeResult: the API response for creating a volume. *)
Module createVolumeResult.
Record t : Type := mk {
  Name : listVolumeJobIDResult.t;
  Code : Z;
  Message : string;
}.
(** [createVolumeResult{}] *)
Definition zero : t :=
  mk (listVolumeJobIDResult.mk (listVolumeIDResult.mk "")) 0 "".
End createVolumeResult.

Module apiResponseCodeMessage.
Record t : Type := mk { Code : Z; Message : string }.
End apiResponseCodeMessage.

(** Modelled from the spec: the struct apiErrorResponse is declared in
    another file of the package.  The spec gives its decoded shape, a
    numeric code and a message, under the wire names code and message; the
    volume code reads exactly these two fields. *)
Module apiErrorResponse.
Record t : Type := mk { Code : Z; Message : string }.
End apiErrorResponse.

(** The client, as far as the volume code reads it: the project that
    SetProjectID stores and GetProjectID returns. *)
Module Client.
Record t : Type := mk { Project : string }.
End Client.

(** ** Package gcp: what a volume operation does to the outside

    An operation talks to the control plane through [c.CallAPIMethod] and
    waits with [time.Sleep]; the log keeps both, oldest first. *)
Inductive event (Params : Type) : Type :=
| Call (method baseURL : string) (params : option Params)
| Sleep (seconds : Z).
Arguments Call {Params} method baseURL params.
Arguments Sleep {Params} seconds.

(** [json.Unmarshal(response, &x)] for an [x] of type [A], zero before the
    call; the code never reads [x] when the decoder reports an error. *)
Class Unmarshal (A : Type) : Type := json_Unmarshal : bytes -> result A.
Global Hint Mode Unmarshal ! : typeclass_instances.

(** What the volume code calls and does not define: [structs.Map] and the
    JSON decoder are libraries; [CallAPIMethod], [apiResponseChecker] and
    [nextRandomInt] are functions of the package defined in its other
    files.  They are parameters of the embedding: [answer] is what
    [CallAPIMethod] returns and [draw] what [nextRandomInt] returns.  The
    answer of the control plane and the random draw may depend on all that
    happened before, which the log records. *)
Class Backend (Params : Type) : Type := {
  structs_Map : volumeRequest.t -> Params;
  answer : list (event Params) -> string -> string -> option Params -> Z * bytes * option error;
  apiResponseChecker : Z -> bytes -> string -> option error;
  draw : list (event Params) -> Z -> Z -> Z;
  decode_apiErrorResponse :: Unmarshal apiErrorResponse.t;
  decode_createVolumeResult :: Unmarshal createVolumeResult.t;
  decode_volumeResult :: Unmarshal volumeResult.t;
  decode_volumeResults :: Unmarshal (list volumeResult.t);
  decode_apiResponseCodeMessage :: Unmarshal apiResponseCodeMessage.t;
}.

(** How a retry loop is left: by a [return] inside its body, or by running
    out of retries, which falls through to the code after the loop with the
    variables [responseError] and [response] as the last turn left them. *)
Inductive loopExit (R : Type) : Type :=
| Returned (r : R)
| FellThrough (responseError : option error) (response : bytes).
Arguments Returned {R} r.
Arguments FellThrough {R} responseError response.

Section Volumes.
Context {Params : Type} {backend : Backend Params}.

(** A computation that reads and extends the log. *)
Definition M (A : Type) : Type := list (event Params) -> A * list (event Params).
Definition ret {A : Type} (a : A) : M A := fun log => (a, log).
Definition bind {A B : Type} (m : M A) (k : A -> M B) : M B :=
  fun log => let (a, log') := m log in k a log'.

Local Notation "x <- e ;; k" := (bind e (fun x => k))
  (at level 100, e at next level, k at level 200, right associativity).

Definition CallAPIMethod (method baseURL : string) (params : option Params)
  : M (Z * bytes * option error) :=
  fun log => (answer log method baseURL params, log ++ [Call method baseURL params]).

Definition nextRandomInt (min max : Z) : M Z :=
  fun log => (draw log min max, log).

(** [time.Sleep(time.Duration(n) * time.Second)] *)
Definition time_Sleep (seconds : Z) : M unit :=
  fun log => (tt, log ++ [Sleep seconds]).

Definition GetProjectID (c : Client.t) : string := Client.Project c.

(** The last lines of createVolume (329 to 335) decode the response. *)
Definition decodeCreated (response : bytes) : createVolumeResult.t * option error :=
  match json_Unmarshal (A := createVolumeResult.t) response with
  | Failure err => (createVolumeResult.zero, Some err)
  | Success result => (result, None)
  end.

Definition createVolumeCreationToken (c : Client.t) (request : volumeRequest.t)
  : M (volumeResult.t * option error) :=
  let params := structs_Map request in
  let baseURL := volumeRequest.Region request +:+ "/VolumeCreationToken" in
  answered <- CallAPIMethod "GET" baseURL (Some params) ;;
  let '(statusCode, response, err) := answered in
  match err with
  | Some err => ret (volumeResult.zero, Some err)
  | None =>
    match apiResponseChecker statusCode response "createVolumeCreationToken" with
    | Some responseError => ret (volumeResult.zero, Some responseError)
    | None =>
      match json_Unmarshal (A := volumeResult.t) response with
      | Failure err => ret (volumeResult.zero, Some err)
      | Success result => ret (result, None)
      end
    end
  end.

(** The two retry loops of createVolume (lines 267 to 292 and 294 to 319)
    are the same text up to the number of retries and the bounds of the
    sleep, which are the first three arguments here.  [responseError] and
    [response] are the variables of the enclosing function that the loop
    assigns. *)
Fixpoint createRetry (min max : Z) (retries : nat) (baseURL : string) (params : Params)
    (responseError : option error) (response : bytes)
  : M (loopExit (createVolumeResult.t * option error)) :=
  match retries with
  | O => ret (FellThrough responseError response)
  | S retries' =>
    seconds <- nextRandomInt min max ;;
    _ <- time_Sleep seconds ;;
    answered <- CallAPIMethod "POST" baseURL (Some params) ;;
    let '(statusCode, response, err) := answered in
    match err with
    | Some err => ret (Returned (createVolumeResult.zero, Some err))
    | None =>
      let responseError := apiResponseChecker statusCode response "createVolume" in
      match json_Unmarshal (A := apiErrorResponse.t) response with
      | Failure _ => ret (Returned (createVolumeResult.zero, Some (fmt_Errorf response [])))
      | Success content =>
        if decide (apiErrorResponse.Code content = 0) then
          match json_Unmarshal (A := createVolumeResult.t) response with
          | Failure _ => ret (Returned (createVolumeResult.zero, Some (fmt_Errorf response [])))
          | Success result => ret (Returned (result, None))
          end
        else if decide (apiErrorResponse.Code content <> 500) then
          ret (Returned (createVolumeResult.zero, responseError))
        else createRetry min max retries' baseURL params responseError response
      end
    end
  end.

(** Lines 242 to 248 of createVolume: the network reference is rewritten,
    through the pointer, to its path in the shared-VPC project when one is
    given and in the project of the client otherwise. *)
Definition resolveNetwork (c : Client.t) (request : volumeRequest.t) : volumeRequest.t :=
  let projectID :=
    if decide (volumeRequest.SharedVpcProjectNumber request <> "")
    then volumeRequest.SharedVpcProjectNumber request
    else GetProjectID c in
  volumeRequest.set_Network
    ("projects/" +:+ projectID +:+ "/global/networks/" +:+ volumeRequest.Network request)
    request.

(** createVolume from line 242 on, with the creation token already in the
    request.  The first component of the result is the request as the
    caller finds it afterwards. *)
Definition submitVolume (c : Client.t) (request : volumeRequest.t) (volType : string)
  : M (volumeRequest.t * (createVolumeResult.t * option error)) :=
  let request := resolveNetwork c request in
  let params := structs_Map request in
  let baseURL := volumeRequest.Region request +:+ "/" +:+ volType in
  answered <- CallAPIMethod "POST" baseURL (Some params) ;;
  let '(statusCode, response, err) := answered in
  match err with
  | Some err => ret (request, (createVolumeResult.zero, Some err))
  | None =>
    match apiResponseChecker statusCode response "createVolume" with
    | None => ret (request, decodeCreated response)
    | Some responseError =>
      match json_Unmarshal (A := apiErrorResponse.t) response with
      | Failure _ => ret (request, (createVolumeResult.zero, Some (fmt_Errorf response [])))
      | Success responseErrorContent =>
        exit <- (if decide (apiErrorResponse.Code responseErrorContent = 500) then
                   if decide (apiErrorResponse.Message responseErrorContent
                              = spawnJobCreationErrorMessage) then
                     createRetry 30 50 10 baseURL params (Some responseError) response
                   else if decide (apiErrorResponse.Message responseErrorContent
                                   = contextDeadlineExceededErrorMessage) then
                     createRetry 5 10 5 baseURL params (Some responseError) response
                   else ret (Returned (createVolumeResult.zero, Some responseError))
                 else ret (FellThrough (Some responseError) response)) ;;
        match exit with
        | Returned r => ret (request, r)
        | FellThrough responseError response =>
          if (300 <=? apiErrorResponse.Code responseErrorContent)
             || (apiErrorResponse.Code responseErrorContent <? 200)
          then ret (request, (createVolumeResult.zero, responseError))
          else ret (request, decodeCreated response)
        end
      end
    end
  end.

Definition createVolume (c : Client.t) (request : volumeRequest.t) (volType : string)
  : M (volumeRequest.t * (createVolumeResult.t * option error)) :=
  if decide (volumeRequest.CreationToken request = "") then
    minted <- createVolumeCreationToken c request ;;
    let '(creationToken, err) := minted in
    match err with
    | Some err => ret (request, (createVolumeResult.zero, Some err))
    | None =>
      submitVolume c
        (volumeRequest.set_CreationToken (volumeResult.CreationToken creationToken) request)
        volType
    end
  else submitVolume c request volType.

(** The retry loop of deleteVolume (lines 356 to 381).  On code 0 it decodes
    the body as a createVolumeResult, as the source does, and drops it. *)
Fixpoint deleteRetry (retries : nat) (baseURL : string)
    (responseError : option error) (response : bytes)
  : M (loopExit (option error)) :=
  match retries with
  | O => ret (FellThrough responseError response)
  | S retries' =>
    seconds <- nextRandomInt 30 50 ;;
    _ <- time_Sleep seconds ;;
    answered <- CallAPIMethod "DELETE" baseURL None ;;
    let '(statusCode, response, err) := answered in
    match err with
    | Some err => ret (Returned (Some err))
    | None =>
      let responseError := apiResponseChecker statusCode response "deleteVolume" in
      match json_Unmarshal (A := apiErrorResponse.t) response with
      | Failure _ => ret (Returned (Some (fmt_Errorf response [])))
      | Success content =>
        if decide (apiErrorResponse.Code content = 0) then
          match json_Unmarshal (A := createVolumeResult.t) response with
          | Failure _ => ret (Returned (Some (fmt_Errorf response [])))
          | Success _ => ret (Returned None)
          end
        else if decide (apiErrorResponse.Code content <> 500) then
          ret (Returned responseError)
        else deleteRetry retries' baseURL responseError response
      end
    end
  end.

(** The last lines of deleteVolume (392 to 398). *)
Definition decodeDeleted (response : bytes) : option error :=
  match json_Unmarshal (A := apiErrorResponse.t) response with
  | Failure _ => Some (fmt_Errorf response [])
  | Success _ => None
  end.

Definition deleteVolume (c : Client.t) (request : volumeRequest.t) : M (option error) :=
  let baseURL :=
    volumeRequest.Region request +:+ "/Volumes/" +:+ volumeRequest.VolumeID request in
  answered <- CallAPIMethod "DELETE" baseURL None ;;
  let '(statusCode, response, err) := answered in
  match err with
  | Some err => ret (Some err)
  | None =>
    match apiResponseChecker statusCode response "deleteVolume" with
    | None => ret (decodeDeleted response)
    | Some responseError =>
      match json_Unmarshal (A := apiErrorResponse.t) response with
      | Failure _ => ret (Some (fmt_Errorf response []))
      | Success responseErrorContent =>
        exit <- (if decide (apiErrorResponse.Code responseErrorContent = 500) then
                   if decide (apiErrorResponse.Message responseErrorContent
                              = spawnJobDeletionErrorMessage) then
                     deleteRetry 10 baseURL (Some responseError) response
                   else ret (Returned (Some responseError))
                 else ret (FellThrough (Some responseError) response)) ;;
        match exit with
        | Returned r => ret r
        | FellThrough responseError response =>
          if (300 <=? apiErrorResponse.Code responseErrorContent)
             || (apiErrorResponse.Code responseErrorContent <? 200)
          then ret responseError
          else ret (decodeDeleted response)
        end
      end
    end
  end.

Definition updateVolume (c : Client.t) (request : volumeRequest.t) : M (option error) :=
  let params := structs_Map request in
  let baseURL :=
    volumeRequest.Region request +:+ "/Volumes/" +:+ volumeRequest.VolumeID request in
  answered <- CallAPIMethod "PUT" baseURL (Some params) ;;
  let '(statusCode, response, err) := answered in
  match err with
  | Some err => ret (Some err)
  | None =>
    match apiResponseChecker statusCode response "updateVolume" with
    | Some responseError => ret (Some responseError)
    | None =>
      match json_Unmarshal (A := apiResponseCodeMessage.t) response with
      | Failure err => ret (Some err)
      | Success result =>
        if decide ((apiResponseCodeMessage.Code result <> 0
                    /\ apiResponseCodeMessage.Code result <> 200)
                   \/ apiResponseCodeMessage.Message result <> "")
        then ret (Some (fmt_Errorf "code: %d, message: %s"
                          [OpInt (apiResponseCodeMessage.Code result);
                           OpStr (apiResponseCodeMessage.Message result)]))
        else ret None
      end
    end
  end.

(** The loop of getVolumeByNameOrCreationToken over the listed volumes
    (lines 204 to 218): it returns from inside on the first volume that
    carries the wanted creation token, and otherwise ends with the number
    of volumes of the wanted name and the last of them.  [count] stays
    below the length of the slice. *)
Fixpoint scanVolumes (volume : volumeRequest.t) (result : list volumeResult.t)
    (count : Z) (resultVolume : volumeResult.t)
  : (volumeResult.t * option error) + (Z * volumeResult.t) :=
  match result with
  | [] => inr (count, resultVolume)
  | eachVolume :: rest =>
    if decide (volumeRequest.CreationToken volume <> ""
               /\ volumeResult.CreationToken eachVolume = volumeRequest.CreationToken volume)
    then
      if decide (volumeRequest.Name volume <> ""
                 /\ volumeResult.Name eachVolume = volumeRequest.Name volume)
      then inl (eachVolume, None)
      else if decide (volumeRequest.Name volume <> ""
                      /\ volumeResult.Name eachVolume <> volumeRequest.Name volume)
      then inl (volumeResult.zero,
                Some (fmt_Errorf "Given CreationToken does not match with given volume name : %v"
                        [OpStr (volumeRequest.Name volume)]))
      else inl (eachVolume, None)
    else if decide (volumeRequest.CreationToken volume = ""
                    /\ volumeRequest.Name volume <> ""
                    /\ volumeResult.Name eachVolume = volumeRequest.Name volume)
    then scanVolumes volume rest (count + 1) eachVolume
    else scanVolumes volume rest count resultVolume
  end.

(** Lines 204 to 228: the disambiguation over the decoded list. *)
Definition pickVolume (volume : volumeRequest.t) (result : list volumeResult.t)
  : volumeResult.t * option error :=
  match scanVolumes volume result 0 volumeResult.zero with
  | inl r => r
  | inr (count, resultVolume) =>
    if decide (volumeRequest.CreationToken volume <> "") then
      (volumeResult.zero,
       Some (fmt_Errorf "Given CreationToken does not exist : %v"
               [OpStr (volumeRequest.CreationToken volume)]))
    else if 1 <? count then
      (volumeResult.zero,
       Some (fmt_Errorf "Found more than one volume : %v" [OpStr (volumeRequest.Name volume)]))
    else if count =? 0 then
      (volumeResult.zero,
       Some (fmt_Errorf "No volume found for : %v" [OpStr (volumeRequest.Name volume)]))
    else (resultVolume, None)
  end.

Definition getVolumeByNameOrCreationToken (c : Client.t) (volume : volumeRequest.t)
  : M (volumeResult.t * option error) :=
  if decide (volumeRequest.Name volume = "" /\ volumeRequest.CreationToken volume = "") then
    ret (volumeResult.zero,
         Some (fmt_Errorf "Either CreationToken or volume name or both are required" []))
  else
    let baseURL := volumeRequest.Region volume +:+ "/Volumes" in
    answered <- CallAPIMethod "GET" baseURL None ;;
    let '(statusCode, response, err) := answered in
    match err with
    | Some err => ret (volumeResult.zero, Some err)
    | None =>
      match apiResponseChecker statusCode response "getVolumeByNameOrCreationToken" with
      | Some responseError => ret (volumeResult.zero, Some responseError)
      | None =>
        match json_Unmarshal (A := list volumeResult.t) response with
        | Failure err => ret (volumeResult.zero, Some err)
        | Success result => ret (pickVolume volume result)
        end
      end
    end.

End Volumes.

(** ** Words of the specification, over the log and the answers *)

(** The listed volumes of a given name, and those carrying a given token. *)
Definition named (name : string) (l : list volumeResult.t) : list volumeResult.t :=
  filter (fun v => volumeResult.Name v = name) l.
Definition carrying (creationToken : string) (l : list volumeResult.t)
  : list volumeResult.t :=
  filter (fun v => volumeResult.CreationToken v = creationToken) l.



Section Notions.
Context {Params : Type} {backend : Backend Params}.

(** How many calls with the given method the log holds. *)
Fixpoint attempts (method : string) (log : list (event Params)) : nat :=
  match log with
  | [] => O
  | Call m _ _ :: rest =>
      if decide (m = method) then S (attempts method rest) else attempts method rest
  | Sleep _ :: rest => attempts method rest
  end.

(** The waits of the log, in order. *)
Fixpoint sleeps (log : list (event Params)) : list Z :=
  match log with
  | [] => []
  | Sleep s :: rest => s :: sleeps rest
  | Call _ _ _ :: rest => sleeps rest
  end.

(** The answer [a] came without a transport error, the response checker
    called [funcName] turned it down with [responseError], and its body
    decodes to the error envelope [content]. *)
Definition refused (funcName : string) (a : Z * bytes * option error)
    (responseError : error) (content : apiErrorResponse.t) : Prop :=
  a.2 = None
  /\ apiResponseChecker a.1.1 a.1.2 funcName = Some responseError
  /\ json_Unmarshal (A := apiErrorResponse.t) a.1.2 = Success content.

(** The answer came without a transport error and its body decodes to the
    error envelope [content], whatever the status. *)
Definition enveloped (a : Z * bytes * option error) (content : apiErrorResponse.t) : Prop :=
  a.2 = None /\ json_Unmarshal (A := apiErrorResponse.t) a.1.2 = Success content.

(** The request and the log at the first submission of a create (lines 233
    to 240): the request of the caller when it carries a token, else the
    request with the token the mint call returned; nothing when the mint
    call fails. *)
Definition atFirstSubmission (c : Client.t) (request : volumeRequest.t)
    (log : list (event Params)) : option (volumeRequest.t * list (event Params)) :=
  if decide (volumeRequest.CreationToken request = "") then
    match createVolumeCreationToken c request log with
    | ((creationToken, None), log') =>
        Some (volumeRequest.set_CreationToken (volumeResult.CreationToken creationToken) request,
              log')
    | ((_, Some _), _) => None
    end
  else Some (request, log).

(** The submission of a create, as the log shows it. *)
Definition submission (c : Client.t) (request : volumeRequest.t) (volType : string)
  : event Params :=
  Call "POST" (volumeRequest.Region request +:+ "/" +:+ volType)
       (Some (structs_Map (resolveNetwork c request))).

(** The removal call of a delete. *)
Definition removal (request : volumeRequest.t) : event Params :=
  Call "DELETE" (volumeRequest.Region request +:+ "/Volumes/" +:+ volumeRequest.VolumeID request)
       None.

(** The call that mints a creation token. *)
Definition mintCall (request : volumeRequest.t) : event Params :=
  Call "GET" (volumeRequest.Region request +:+ "/VolumeCreationToken")
       (Some (structs_Map request)).

(** The parameters a call carries, if any. *)
Definition carries (params : Params) (ev : event Params) : Prop :=
  match ev with
  | Call _ _ sent => sent = Some params
  | Sleep _ => True
  end.

(** What a run of retry turns adds to the log: a wait, then the call. *)
Definition turns (call : event Params) (waits : list Z) : list (event Params) :=
  flat_map (fun s => [Sleep s; call]) waits.

End Notions.

(** ** A scripted control plane, to run the operations on concrete inputs *)
Module Fixture.

(** The double quote of JSON texts. *)
Definition dq : string := String (Ascii.ascii_of_nat 34%nat) "".
Definition quoted (s : string) : string := dq +:+ s +:+ dq.

(** The error envelope on the wire, [code] in decimal digits. *)
Definition envelope (code message : string) : bytes :=
  "{" +:+ quoted "code" +:+ ":" +:+ code +:+ "," +:+ quoted "message" +:+ ":"
      +:+ quoted message +:+ "}".

Definition busyCreating : bytes := envelope "500" spawnJobCreationErrorMessage.
Definition busyDeleting : bytes := envelope "500" spawnJobDeletionErrorMessage.
Definition timedOut : bytes := envelope "500" contextDeadlineExceededErrorMessage.
Definition diskFailure : bytes := envelope "500" "disk failure".
Definition done : bytes := envelope "0" "".
Definition accepted : bytes := envelope "200" "".
Definition partial : bytes := envelope "200" "partial".
Definition badGateway : bytes := "<html>502 Bad Gateway</html>".
(** A page that holds a percent sign followed by a letter. *)
Definition outage : bytes := "<html>100%down</html>".

(** The success envelope of a create, and one whose response member is a
    number where the decoder of createVolumeResult wants an object. *)
Definition created : bytes :=
  "{" +:+ quoted "response" +:+ ":{" +:+ quoted "AnyValue" +:+ ":{" +:+ quoted "volumeId"
      +:+ ":" +:+ quoted "vol-1" +:+ "}}," +:+ quoted "code" +:+ ":0,"
      +:+ quoted "message" +:+ ":" +:+ quoted "" +:+ "}".
Definition misshapen : bytes :=
  "{" +:+ quoted "code" +:+ ":0," +:+ quoted "message" +:+ ":" +:+ quoted "" +:+ ","
      +:+ quoted "response" +:+ ":7}".

Definition listed (name creationToken : string) : bytes :=
  "{" +:+ quoted "name" +:+ ":" +:+ quoted name +:+ "," +:+ quoted "creationToken" +:+ ":"
      +:+ quoted creationToken +:+ "}".
(** Two volumes named vol-a and one named vol-b. *)
Definition listing : bytes :=
  "[" +:+ listed "vol-a" "token-1" +:+ "," +:+ listed "vol-a" "token-2" +:+ ","
      +:+ listed "vol-b" "token-3" +:+ "]".
Definition tokenIssued : bytes := "{" +:+ quoted "creationToken" +:+ ":" +:+ quoted "token-9" +:+ "}".

Definition volume (name creationToken : string) : volumeResult.t :=
  volumeResult.mk name "" creationToken [] "" 0 "" snapshotPolicy.zero exportPolicy.zero
                  "" "" "" [] "" "".
Definition volA1 : volumeResult.t := volume "vol-a" "token-1".
Definition volA2 : volumeResult.t := volume "vol-a" "token-2".
Definition volB : volumeResult.t := volume "vol-b" "token-3".

(** The decoders, as tables over the bodies above: what json.Unmarshal
    yields for each text and target type; every other text is refused. *)
Fixpoint decodeWith {A : Type} (table : list (bytes * A)) (body : bytes) : result A :=
  match table with
  | [] => Failure (errorString "json: cannot unmarshal")
  | (text, a) :: rest => if decide (body = text) then Success a else decodeWith rest body
  end.

Definition errorTable : list (bytes * apiErrorResponse.t) :=
  [ (busyCreating, apiErrorResponse.mk 500 spawnJobCreationErrorMessage);
    (busyDeleting, apiErrorResponse.mk 500 spawnJobDeletionErrorMessage);
    (timedOut, apiErrorResponse.mk 500 contextDeadlineExceededErrorMessage);
    (diskFailure, apiErrorResponse.mk 500 "disk failure");
    (done, apiErrorResponse.mk 0 "");
    (created, apiErrorResponse.mk 0 "");
    (misshapen, apiErrorResponse.mk 0 "") ].

Definition createdTable : list (bytes * createVolumeResult.t) :=
  [ (created,
     createVolumeResult.mk (listVolumeJobIDResult.mk (listVolumeIDResult.mk "vol-1")) 0 "");
    (done, createVolumeResult.zero) ].

Definition codeMessageTable : list (bytes * apiResponseCodeMessage.t) :=
  [ (done, apiResponseCodeMessage.mk 0 "");
    (accepted, apiResponseCodeMessage.mk 200 "");
    (partial, apiResponseCodeMessage.mk 200 "partial") ].

Definition volumesTable : list (bytes * list volumeResult.t) :=
  [ (listing, [volA1; volA2; volB]) ].

Definition volumeTable : list (bytes * volumeResult.t) :=
  [ (tokenIssued, volume "" "token-9") ].

(** Modelled from the spec: a stand-in for apiResponseChecker, which is
    defined in another file of the package.  The spec has a response
    succeed when its status is in the success range, which createVolume
    itself takes as 200 to 299; the error it makes is this stand-in's own. *)
Definition statusChecker (statusCode : Z) (response : bytes) (funcName : string)
  : option error :=
  if (300 <=? statusCode) || (statusCode <? 200)
  then Some (fmt_Errorf "%s request failed, code: %d, message: %s"
               [OpStr funcName; OpInt statusCode; OpStr response])
  else None.

(** Modelled from the spec: a stand-in for nextRandomInt, which is defined
    in another file of the package.  The spec has it draw from the bounds it
    is given; this stand-in walks through them as the log grows. *)
Definition walk {P : Type} (log : list (event P)) (min max : Z) : Z :=
  min + Z.of_nat (length log) mod (max - min + 1).

Fixpoint callsMade {P : Type} (log : list (event P)) : nat :=
  match log with
  | [] => O
  | Call _ _ _ :: rest => S (callsMade rest)
  | Sleep _ :: rest => callsMade rest
  end.

(** The control plane answers the calls of one run by the script, in
    order, and by [after] once the script is used up.  The parameters of
    a call are the request itself. *)
#[local] Instance scripted (script : list (Z * bytes)) (after : Z * bytes)
  : Backend volumeRequest.t := {|
  structs_Map := fun request => request;
  answer := fun log _ _ _ => (nth (callsMade log) script after, None);
  apiResponseChecker := statusChecker;
  draw := walk;
  decode_apiErrorResponse := decodeWith errorTable;
  decode_createVolumeResult := decodeWith createdTable;
  decode_volumeResult := decodeWith volumeTable;
  decode_volumeResults := decodeWith volumesTable;
  decode_apiResponseCodeMessage := decodeWith codeMessageTable;
|}.

Definition client : Client.t := Client.mk "project-1".

(** A request for a volume, with and without a creation token. *)
Definition wanted (name creationToken : string) : volumeRequest.t :=
  volumeRequest.mk name "us-east4" creationToken ["NFSv3"] "default" 1099511627776
                   "medium" snapshotPolicy.zero exportPolicy.zero "vol-1" "" "" "".

(** The collaborators of the request builder: the parameters are their own
    JSON text, nothing is refused, no key file exists, and the issuer signs
    any key with a fixed token. *)
#[local] Instance builder : restapi.Collaborators string := {|
  restapi.json_Marshal := fun params => Success params;
  restapi.refuse := fun _ _ => None;
  restapi.ioutil_ReadFile := fun _ => Failure (errorString "no such file");
  restapi.TokenSource := bytes;
  restapi.google_JWTAccessTokenSourceFromJSON := fun keyBytes _ => Success keyBytes;
  restapi.Token := fun _ => Success "signed-token";
|}.

End Fixture.

(** ** Package gcp: the remaining operations on volumes *)
Section Reads.
Context {Params : Type} {backend : Backend Params}.

Local Notation "x <- e ;; k" := (bind e (fun x => k))
  (at level 100, e at next level, k at level 200, right associativity).

Definition getVolumeByID (c : Client.t) (volume : volumeRequest.t)
  : M (volumeResult.t * option error) :=
  let baseURL :=
    volumeRequest.Region volume +:+ "/Volumes/" +:+ volumeRequest.VolumeID volume in
  answered <- CallAPIMethod "GET" baseURL None ;;
  let '(statusCode, response, err) := answered in
  match err with
  | Some err => ret (volumeResult.zero, Some err)
  | None =>
    match apiResponseChecker statusCode response "getVolumeByID" with
    | Some responseError => ret (volumeResult.zero, Some responseError)
    | None =>
      match json_Unmarshal (A := volumeResult.t) response with
      | Failure err => ret (volumeResult.zero, Some err)
      | Success result => ret (result, None)
      end
    end
  end.

(** getVolumeByRegion hands back the slice it passed to the decoder even
    when the decoder reports an error; [leftover] is what json.Unmarshal
    has stored in the slice by then. *)
Variable leftover : bytes -> list volumeResult.t.

Definition getVolumeByRegion (c : Client.t) (region : string)
  : M (list volumeResult.t * option error) :=
  let baseURL := region +:+ "/Volumes" in
  answered <- CallAPIMethod "GET" baseURL None ;;
  let '(statusCode, response, err) := answered in
  match err with
  | Some err => ret ([], Some err)
  | None =>
    match apiResponseChecker statusCode response "getVolumeByRegion" with
    | Some responseError => ret ([], Some responseError)
    | None =>
      match json_Unmarshal (A := list volumeResult.t) response with
      | Failure err => ret (leftover response, Some err)
      | Success volumes => ret (volumes, None)
      end
    end
  end.

(** SetProjectID stores the project the client uses from then on. *)
Definition SetProjectID (c : Client.t) (project : string) : Client.t :=
  Client.mk project.

End Reads.

(** ** Package gcp: the conversions to and from configuration maps

    A Go [interface{}] is kept with its dynamic type, since the code
    asserts it: [VSlice] is a [[]interface{}], [VMap] a
    [map[string]interface{}] and [VMapSlice] a [[]map[string]interface{}].
    A failed type assertion panics; a function that asserts returns [None]
    when it panics. *)
#[warnings="-register-all"]
Inductive value : Type :=
| VBool (b : bool)
| VInt (n : Z)
| VString (s : string)
| VSlice (l : list value)
| VMap (m : gmap string value)
| VMapSlice (l : list (gmap string value)).

(** [v.(bool)], [v.(int)], [v.(string)], [v.([]interface{})] and
    [v.(map[string]interface{})]. *)
Definition asBool (v : value) : option bool :=
  match v with VBool b => Some b | _ => None end.
Definition asInt (v : value) : option Z :=
  match v with VInt n => Some n | _ => None end.
Definition asString (v : value) : option string :=
  match v with VString s => Some s | _ => None end.
Definition asSlice (v : value) : option (list value) :=
  match v with VSlice l => Some l | _ => None end.
Definition asMap (v : value) : option (gmap string value) :=
  match v with VMap m => Some m | _ => None end.

(** The idiom [if v, ok := m[key]; ok { x.F = v.(T) }]: the field is set
    when the key is there, the assertion may panic, and [x] is left alone
    when the key is missing. *)
Definition whenPresent {T A : Type} (m : gmap string value) (key : string)
    (assert : value -> option T) (set : T -> A -> A) (x : A) : option A :=
  match m !! key with
  | Some v => t ← assert v; Some (set t x)
  | None => Some x
  end.

(** The idiom of expandSnapshotPolicy for one schedule: when the key is
    there and its list is not empty, the fields are read off the first
    block of the list. *)
Definition whenBlock {A : Type} (data : gmap string value) (key : string)
    (fill : gmap string value -> A -> option A) (x : A) : option A :=
  match data !! key with
  | Some v =>
      l ← asSlice v;
      match l with
      | [] => Some x
      | first :: _ => block ← asMap first; fill block x
      end
  | None => Some x
  end.

Definition expandDaily (block : gmap string value) (d : dailySchedule.t)
  : option dailySchedule.t :=
  d ← whenPresent block "hour" asInt
        (fun n d => dailySchedule.mk n (dailySchedule.Minute d)
                      (dailySchedule.SnapshotsToKeep d)) d;
  d ← whenPresent block "minute" asInt
        (fun n d => dailySchedule.mk (dailySchedule.Hour d) n
                      (dailySchedule.SnapshotsToKeep d)) d;
  whenPresent block "snapshots_to_keep" asInt
    (fun n d => dailySchedule.mk (dailySchedule.Hour d) (dailySchedule.Minute d) n) d.

Definition expandHourly (block : gmap string value) (h : hourlySchedule.t)
  : option hourlySchedule.t :=
  h ← whenPresent block "minute" asInt
        (fun n h => hourlySchedule.mk n (hourlySchedule.SnapshotsToKeep h)) h;
  whenPresent block "snapshots_to_keep" asInt
    (fun n h => hourlySchedule.mk (hourlySchedule.Minute h) n) h.

Definition expandMonthly (block : gmap string value) (m : monthlySchedule.t)
  : option monthlySchedule.t :=
  m ← whenPresent block "days_of_month" asString
        (fun s m => monthlySchedule.mk s (monthlySchedule.Hour m) (monthlySchedule.Minute m)
                      (monthlySchedule.SnapshotsToKeep m)) m;
  m ← whenPresent block "hour" asInt
        (fun n m => monthlySchedule.mk (monthlySchedule.DaysOfMonth m) n
                      (monthlySchedule.Minute m) (monthlySchedule.SnapshotsToKeep m)) m;
  m ← whenPresent block "minute" asInt
        (fun n m => monthlySchedule.mk (monthlySchedule.DaysOfMonth m) (monthlySchedule.Hour m)
                      n (monthlySchedule.SnapshotsToKeep m)) m;
  whenPresent block "snapshots_to_keep" asInt
    (fun n m => monthlySchedule.mk (monthlySchedule.DaysOfMonth m) (monthlySchedule.Hour m)
                  (monthlySchedule.Minute m) n) m.

Definition expandWeekly (block : gmap string value) (w : weeklySchedule.t)
  : option weeklySchedule.t :=
  w ← whenPresent block "day" asString
        (fun s w => weeklySchedule.mk s (weeklySchedule.Hour w) (weeklySchedule.Minute w)
                      (weeklySchedule.SnapshotsToKeep w)) w;
  w ← whenPresent block "hour" asInt
        (fun n w => weeklySchedule.mk (weeklySchedule.Day w) n (weeklySchedule.Minute w)
                      (weeklySchedule.SnapshotsToKeep w)) w;
  w ← whenPresent block "minute" asInt
        (fun n w => weeklySchedule.mk (weeklySchedule.Day w) (weeklySchedule.Hour w) n
                      (weeklySchedule.SnapshotsToKeep w)) w;
  whenPresent block "snapshots_to_keep" asInt
    (fun n w => weeklySchedule.mk (weeklySchedule.Day w) (weeklySchedule.Hour w)
                  (weeklySchedule.Minute w) n) w.

(** expandSnapshotPolicy converts a map to a snapshotPolicy; the keys are
    read in the order of the source: enabled, daily, hourly, monthly,
    weekly. *)
Definition expandSnapshotPolicy (data : gmap string value) : option snapshotPolicy.t :=
  let sp := snapshotPolicy.zero in
  sp ← whenPresent data "enabled" asBool
         (fun b sp => snapshotPolicy.mk b (snapshotPolicy.DailySchedule sp)
                        (snapshotPolicy.HourlySchedule sp) (snapshotPolicy.MonthlySchedule sp)
                        (snapshotPolicy.WeeklySchedule sp)) sp;
  sp ← whenBlock data "daily_schedule"
         (fun block sp =>
            d ← expandDaily block (snapshotPolicy.DailySchedule sp);
            Some (snapshotPolicy.mk (snapshotPolicy.Enabled sp) d
                    (snapshotPolicy.HourlySchedule sp) (snapshotPolicy.MonthlySchedule sp)
                    (snapshotPolicy.WeeklySchedule sp))) sp;
  sp ← whenBlock data "hourly_schedule"
         (fun block sp =>
            h ← expandHourly block (snapshotPolicy.HourlySchedule sp);
            Some (snapshotPolicy.mk (snapshotPolicy.Enabled sp)
                    (snapshotPolicy.DailySchedule sp) h (snapshotPolicy.MonthlySchedule sp)
                    (snapshotPolicy.WeeklySchedule sp))) sp;
  sp ← whenBlock data "monthly_schedule"
         (fun block sp =>
            m ← expandMonthly block (snapshotPolicy.MonthlySchedule sp);
            Some (snapshotPolicy.mk (snapshotPolicy.Enabled sp)
                    (snapshotPolicy.DailySchedule sp) (snapshotPolicy.HourlySchedule sp) m
                    (snapshotPolicy.WeeklySchedule sp))) sp;
  whenBlock data "weekly_schedule"
    (fun block sp =>
       w ← expandWeekly block (snapshotPolicy.WeeklySchedule sp);
       Some (snapshotPolicy.mk (snapshotPolicy.Enabled sp)
               (snapshotPolicy.DailySchedule sp) (snapshotPolicy.HourlySchedule sp)
               (snapshotPolicy.MonthlySchedule sp) w)) sp.

(** One rule of an export policy as a map (lines 539 to 553). *)
Definition ruleMap (rule : exportPolicyRule.t) : gmap string value :=
  let nfsv3Config : gmap string value :=
    {[ "checked" := VBool (nfs.Checked (exportPolicyRule.Nfsv3 rule)) ]} in
  let nfsv4Config : gmap string value :=
    {[ "checked" := VBool (nfs.Checked (exportPolicyRule.Nfsv4 rule)) ]} in
  <["nfsv4" := VMapSlice [nfsv4Config]]>
    (<["nfsv3" := VMapSlice [nfsv3Config]]>
       (<["allowed_clients" := VString (exportPolicyRule.AllowedClients rule)]>
          (<["access" := VString (exportPolicyRule.Access rule)]> ∅))).

(** flattenExportPolicy converts an exportPolicy to a list of one map: the
    loop appends the map of each rule to [rules], empty at first. *)
Definition flattenExportPolicy (v : exportPolicy.t) : value :=
  let rules :=
    fold_left (fun rules exportPolicyRule => rules ++ [ruleMap exportPolicyRule])
              (exportPolicy.Rules v) [] in
  VMapSlice [ {[ "rule" := VMapSlice rules ]} ].

(** The map flattenSnapshotPolicy builds (lines 595 to 621). *)
Definition snapshotPolicyMap (v : snapshotPolicy.t) : gmap string value :=
  let hourly : gmap string value :=
    <["snapshots_to_keep" :=
        VInt (hourlySchedule.SnapshotsToKeep (snapshotPolicy.HourlySchedule v))]>
      (<["minute" := VInt (hourlySchedule.Minute (snapshotPolicy.HourlySchedule v))]> ∅) in
  let daily : gmap string value :=
    <["snapshots_to_keep" :=
        VInt (dailySchedule.SnapshotsToKeep (snapshotPolicy.DailySchedule v))]>
      (<["minute" := VInt (dailySchedule.Minute (snapshotPolicy.DailySchedule v))]>
         (<["hour" := VInt (dailySchedule.Hour (snapshotPolicy.DailySchedule v))]> ∅)) in
  let monthly : gmap string value :=
    <["snapshots_to_keep" :=
        VInt (monthlySchedule.SnapshotsToKeep (snapshotPolicy.MonthlySchedule v))]>
      (<["minute" := VInt (monthlySchedule.Minute (snapshotPolicy.MonthlySchedule v))]>
         (<["hour" := VInt (monthlySchedule.Hour (snapshotPolicy.MonthlySchedule v))]>
            (<["days_of_month" :=
                 VString (monthlySchedule.DaysOfMonth (snapshotPolicy.MonthlySchedule v))]>
               ∅))) in
  let weekly : gmap string value :=
    <["snapshots_to_keep" :=
        VInt (weeklySchedule.SnapshotsToKeep (snapshotPolicy.WeeklySchedule v))]>
      (<["minute" := VInt (weeklySchedule.Minute (snapshotPolicy.WeeklySchedule v))]>
         (<["hour" := VInt (weeklySchedule.Hour (snapshotPolicy.WeeklySchedule v))]>
            (<["day" := VString (weeklySchedule.Day (snapshotPolicy.WeeklySchedule v))]>
               ∅))) in
  <["monthly_schedule" := VMapSlice [monthly]]>
    (<["weekly_schedule" := VMapSlice [weekly]]>
       (<["hourly_schedule" := VMapSlice [hourly]]>
          (<["daily_schedule" := VMapSlice [daily]]>
             (<["enabled" := VBool (snapshotPolicy.Enabled v)]> ∅)))).

(** flattenSnapshotPolicy converts a snapshotPolicy to a list of one map. *)
Definition flattenSnapshotPolicy (v : snapshotPolicy.t) : value :=
  VMapSlice [snapshotPolicyMap v].

(** flattenMountPoints: the loop appends the map of each mount point to
    [mps], empty at first. *)
Definition flattenMountPoints (v : list mountPoints.t) : value :=
  VMapSlice
    (fold_left
       (fun mps mountpoint =>
          let mpmap : gmap string value :=
            <["protocol_type" := VString (mountPoints.ProtocolType mountpoint)]>
              (<["server" := VString (mountPoints.Server mountpoint)]>
                 (<["export" := VString (mountPoints.Export mountpoint)]> ∅)) in
          mps ++ [mpmap])
       v []).

(** A list of blocks as the configuration layer hands it to the expand
    functions: the same maps in a [[]interface{}]. *)
Definition asBlocks (v : value) : value :=
  match v with
  | VMapSlice l => VSlice (VMap <$> l)
  | _ => v
  end.

(** ** More stand-ins for concrete runs *)
Module Scenario.

(** A control plane as in [Fixture.scripted] whose answers may also be
    transport errors. *)
#[local] Instance flaky (script : list (Z * bytes * option error))
    (after : Z * bytes * option error) : Backend volumeRequest.t := {|
  structs_Map := fun request => request;
  answer := fun log _ _ _ => nth (Fixture.callsMade log) script after;
  apiResponseChecker := Fixture.statusChecker;
  draw := Fixture.walk;
  decode_apiErrorResponse := Fixture.decodeWith Fixture.errorTable;
  decode_createVolumeResult := Fixture.decodeWith Fixture.createdTable;
  decode_volumeResult := Fixture.decodeWith Fixture.volumeTable;
  decode_volumeResults := Fixture.decodeWith Fixture.volumesTable;
  decode_apiResponseCodeMessage := Fixture.decodeWith Fixture.codeMessageTable;
|}.

Definition unreachable : Z * bytes * option error :=
  (0, "", Some (errorString "dial tcp: connection refused")).

(** A builder whose parameters may have no JSON encoding, as a Go channel
    or function value has none. *)
#[local] Instance strict : restapi.Collaborators (option string) := {|
  restapi.json_Marshal := fun params =>
    match params with
    | Some text => Success text
    | None => Failure (errorString "json: unsupported type")
    end;
  restapi.refuse := fun _ _ => None;
  restapi.ioutil_ReadFile := fun _ => Failure (errorString "no such file");
  restapi.TokenSource := bytes;
  restapi.google_JWTAccessTokenSourceFromJSON := fun keyBytes _ => Success keyBytes;
  restapi.Token := fun _ => Success "signed-token";
|}.

(** A snapshot policy with every schedule filled in. *)
Definition nightly : snapshotPolicy.t :=
  snapshotPolicy.mk true (dailySchedule.mk 23 30 7) (hourlySchedule.mk 15 24)
    (monthlySchedule.mk "1,15" 2 0 12) (weeklySchedule.mk "Sunday" 3 45 4).

End Scenario.

(** * Properties *)

(** ** The request builder *)
Section BuildHTTPReq_properties.
Context {P : Type} {issuer : restapi.Collaborators P}.

Lemma result_bind_Success {A B : Type} (r : result A) (k : A -> result B) (b : B) :
  result_bind r k = Success b -> exists a, r = Success a /\ k a = Success b.
Proof. destruct r as [a|err]; simpl; [eauto | discriminate]. Qed.


(** The builder succeeds as soon as its collaborators do. *)
Lemma BuildHTTPReq_succeeds (r : restapi.Request P) host serviceAccount credentials audience
    baseURL bodyJSON keyBytes jwt :
  restapi.json_Marshal (restapi.Params r) = Success bodyJSON ->
  restapi.refuse (restapi.Method r) (host +:+ baseURL) = None ->
  restapi.keyMaterial serviceAccount credentials = Success keyBytes ->
  restapi.mintedToken keyBytes audience = Success jwt ->
  exists req, restapi.BuildHTTPReq r host serviceAccount credentials audience baseURL = Success req.
Proof.
  intros Hjson Hnew Hkey Hjwt. unfold restapi.BuildHTTPReq, http.NewRequest.
  rewrite Hnew. destruct (decide _); rewrite ?Hjson; simpl;
    rewrite Hkey; simpl; rewrite Hjwt; simpl; eauto.
Qed.


End BuildHTTPReq_properties.


(** ** Lookup by name or creation token *)
Section Lookup_properties.
Context {Params : Type} {backend : Backend Params}.

Implicit Types (volume : volumeRequest.t) (l : list volumeResult.t) (v : volumeResult.t).

(** With a token, the loop stops at the first volume that carries it. *)
Lemma scanVolumes_token volume l count resultVolume :
  volumeRequest.CreationToken volume <> "" ->
  scanVolumes volume l count resultVolume =
  match head (carrying (volumeRequest.CreationToken volume) l) with
  | None => inr (count, resultVolume)
  | Some v =>
      if decide (volumeRequest.Name volume = "") then inl (v, None)
      else if decide (volumeResult.Name v = volumeRequest.Name volume) then inl (v, None)
      else inl (volumeResult.zero,
                Some (fmt_Errorf "Given CreationToken does not match with given volume name : %v"
                        [OpStr (volumeRequest.Name volume)]))
  end.
Proof.
  intros Htoken. unfold carrying.
  induction l as [|eachVolume rest IH]; [reflexivity|].
  cbn [scanVolumes]. rewrite filter_cons.
  destruct (decide (volumeResult.CreationToken eachVolume = volumeRequest.CreationToken volume))
    as [Hcarry|Hother].
  - rewrite decide_True by auto. cbn [head].
    destruct (decide (volumeRequest.Name volume = "")) as [Hnoname|Hname].
    + rewrite decide_False by (intros [? _]; contradiction).
      rewrite decide_False by (intros [? _]; contradiction). reflexivity.
    + destruct (decide (volumeResult.Name eachVolume = volumeRequest.Name volume)).
      * rewrite decide_True by auto. reflexivity.
      * rewrite decide_False by (intros [_ ?]; contradiction).
        rewrite decide_True by auto. reflexivity.
  - rewrite decide_False by (intros [_ ?]; contradiction).
    rewrite decide_False by (intros [? _]; contradiction). exact IH.
Qed.

(** With a name only, the loop counts the volumes of that name and keeps
    the last of them. *)
Lemma scanVolumes_name volume l count resultVolume :
  volumeRequest.CreationToken volume = "" ->
  volumeRequest.Name volume <> "" ->
  scanVolumes volume l count resultVolume =
  inr (count + Z.of_nat (length (named (volumeRequest.Name volume) l)),
       default resultVolume (last (named (volumeRequest.Name volume) l))).
Proof.
  intros Htoken Hname. unfold named. revert count resultVolume.
  induction l as [|eachVolume rest IH]; intros count resultVolume.
  - cbn. do 2 f_equal. lia.
  - cbn [scanVolumes]. rewrite filter_cons.
    rewrite decide_False by (intros [? _]; contradiction).
    destruct (decide (volumeResult.Name eachVolume = volumeRequest.Name volume)) as [Hsame|Hother].
    + rewrite decide_True by auto. rewrite IH. do 2 f_equal.
      * cbn [length]. lia.
      * destruct (filter _ rest) as [|w ws]; [reflexivity|].
        rewrite last_cons_cons.
        destruct (proj2 (last_is_Some (w :: ws)) ltac:(discriminate)) as [z ->].
        reflexivity.
    + rewrite decide_False by (intros (_ & _ & ?); contradiction). apply IH.
Qed.

(** What the operation returns once the listing is in hand. *)
Lemma getVolumeByNameOrCreationToken_listed c volume log statusCode response l :
  ~ (volumeRequest.Name volume = "" /\ volumeRequest.CreationToken volume = "") ->
  answer log "GET" (volumeRequest.Region volume +:+ "/Volumes") None
    = (statusCode, response, None) ->
  apiResponseChecker statusCode response "getVolumeByNameOrCreationToken" = None ->
  json_Unmarshal (A := list volumeResult.t) response = Success l ->
  getVolumeByNameOrCreationToken c volume log
  = (pickVolume volume l,
     log ++ [Call "GET" (volumeRequest.Region volume +:+ "/Volumes") None]).
Proof.
  intros Hkey Hanswer Hstatus Hdecode. unfold getVolumeByNameOrCreationToken.
  rewrite decide_False by exact Hkey.
  unfold bind, CallAPIMethod, ret. rewrite Hanswer, Hstatus, Hdecode. reflexivity.
Qed.

(** C10.  Asked for a volume with neither a name nor a creation token, the
    lookup fails at once: it returns an error and the log is as it was, so
    no call went out. *)
Theorem getVolumeByNameOrCreationToken_needs_a_key (c : Client.t) (volume : volumeRequest.t)
    (log : list (event Params)) :
  volumeRequest.Name volume = "" ->
  volumeRequest.CreationToken volume = "" ->
  getVolumeByNameOrCreationToken c volume log
  = ((volumeResult.zero,
      Some (fmt_Errorf "Either CreationToken or volume name or both are required" [])),
     log).
Proof.
  intros Hname Htoken. unfold getVolumeByNameOrCreationToken.
  rewrite decide_True by auto. reflexivity.
Qed.

(** C8.  Once the regional listing [l] is fetched and decoded: by name
    only, more than one volume of that name is an error of ambiguity and
    exactly one is returned; by token only, the one volume carrying it is
    returned, whatever the names in the list; a token that no listed
    volume carries is an error of absence; and a token together with a
    name that differs from the name of the first volume carrying the token
    is an error of conflict. *)
Theorem getVolumeByNameOrCreationToken_disambiguates (c : Client.t)
    (volume : volumeRequest.t) (log : list (event Params))
    (statusCode : Z) (response : bytes) (l : list volumeResult.t) :
  let name := volumeRequest.Name volume in
  let creationToken := volumeRequest.CreationToken volume in
  answer log "GET" (volumeRequest.Region volume +:+ "/Volumes") None
    = (statusCode, response, None) ->
  apiResponseChecker statusCode response "getVolumeByNameOrCreationToken" = None ->
  json_Unmarshal (A := list volumeResult.t) response = Success l ->
  let found := (getVolumeByNameOrCreationToken c volume log).1 in
  (name <> "" -> creationToken = "" -> (1 < length (named name l))%nat ->
     found = (volumeResult.zero,
              Some (fmt_Errorf "Found more than one volume : %v" [OpStr name])))
  /\ (forall v, name <> "" -> creationToken = "" -> named name l = [v] ->
        found = (v, None))
  /\ (forall v, creationToken <> "" -> name = "" -> carrying creationToken l = [v] ->
        found = (v, None))
  /\ (creationToken <> "" -> carrying creationToken l = [] ->
        found = (volumeResult.zero,
                 Some (fmt_Errorf "Given CreationToken does not exist : %v"
                         [OpStr creationToken])))
  /\ (forall v, creationToken <> "" -> name <> "" ->
        head (carrying creationToken l) = Some v -> volumeResult.Name v <> name ->
        found = (volumeResult.zero,
                 Some (fmt_Errorf "Given CreationToken does not match with given volume name : %v"
                         [OpStr name]))).
Proof.
  intros name creationToken Hanswer Hstatus Hdecode found.
  assert (Hrun : forall (Hkey : name <> "" \/ creationToken <> ""),
             found = pickVolume volume l).
  { intros Hkey. unfold found.
    rewrite (getVolumeByNameOrCreationToken_listed c volume log statusCode response l);
      auto.
    intros [? ?]. destruct Hkey; contradiction. }
  repeat split.
  - intros Hname Htoken Hmany. rewrite Hrun by auto. unfold pickVolume.
    rewrite scanVolumes_name by assumption. rewrite decide_False by tauto.
    fold name. destruct (Z.ltb_spec 1 (0 + Z.of_nat (length (named name l)))); [reflexivity|lia].
  - intros v Hname Htoken Hone. rewrite Hrun by auto. unfold pickVolume.
    rewrite scanVolumes_name by assumption. rewrite decide_False by tauto.
    fold name. rewrite Hone. reflexivity.
  - intros v Htoken Hname Hone. rewrite Hrun by auto. unfold pickVolume.
    rewrite scanVolumes_token by assumption. fold creationToken. rewrite Hone. cbn [head].
    rewrite decide_True by assumption. reflexivity.
  - intros Htoken Hnone. rewrite Hrun by auto. unfold pickVolume.
    rewrite scanVolumes_token by assumption. fold creationToken. rewrite Hnone. cbn [head].
    rewrite decide_True by assumption. reflexivity.
  - intros v Htoken Hname Hfirst Hdiffer. rewrite Hrun by auto. unfold pickVolume.
    rewrite scanVolumes_token by assumption. fold creationToken. rewrite Hfirst.
    rewrite decide_False by assumption. rewrite decide_False by assumption. reflexivity.
Qed.

End Lookup_properties.

(** A lookup with no name and no token, on a control plane that would have
    answered: the error comes back and the log stays empty. *)
Lemma getVolumeByNameOrCreationToken_needs_a_key_witness :
  getVolumeByNameOrCreationToken
    (backend := Fixture.scripted [] (200, Fixture.listing))
    Fixture.client (Fixture.wanted "" "") []
  = ((volumeResult.zero,
      Some (fmt_Errorf "Either CreationToken or volume name or both are required" [])),
     []).
Proof.
  apply (getVolumeByNameOrCreationToken_needs_a_key
           (backend := Fixture.scripted [] (200, Fixture.listing))); reflexivity.
Defined.

(** The listing of the specification, two volumes named vol-a and one
    named vol-b: vol-a alone is ambiguous, vol-b alone is found, the token
    of the second vol-a finds it, an unknown token finds nothing, and the
    token of the first vol-a with the name vol-b is a conflict. *)
Lemma getVolumeByNameOrCreationToken_disambiguates_witness :
  let lookup name creationToken :=
    (getVolumeByNameOrCreationToken
       (backend := Fixture.scripted [] (200, Fixture.listing))
       Fixture.client (Fixture.wanted name creationToken) []).1 in
  lookup "vol-a" "" = (volumeResult.zero,
                       Some (fmt_Errorf "Found more than one volume : %v" [OpStr "vol-a"]))
  /\ lookup "vol-b" "" = (Fixture.volB, None)
  /\ lookup "" "token-2" = (Fixture.volA2, None)
  /\ lookup "" "token-0" = (volumeResult.zero,
                            Some (fmt_Errorf "Given CreationToken does not exist : %v"
                                    [OpStr "token-0"]))
  /\ lookup "vol-b" "token-1"
     = (volumeResult.zero,
        Some (fmt_Errorf "Given CreationToken does not match with given volume name : %v"
                [OpStr "vol-b"])).
Proof.
  pose (rule name creationToken :=
          getVolumeByNameOrCreationToken_disambiguates
            (backend := Fixture.scripted [] (200, Fixture.listing))
            Fixture.client (Fixture.wanted name creationToken) [] 200 Fixture.listing
            [Fixture.volA1; Fixture.volA2; Fixture.volB] eq_refl eq_refl eq_refl).
  intros lookup. split; [|split; [|split; [|split]]].
  - destruct (rule "vol-a" "") as (Hmany & _).
    apply Hmany; [discriminate | reflexivity | vm_compute; lia].
  - destruct (rule "vol-b" "") as (_ & Hone & _).
    apply Hone; [discriminate | reflexivity | reflexivity].
  - destruct (rule "" "token-2") as (_ & _ & Htoken & _).
    apply Htoken; [discriminate | reflexivity | reflexivity].
  - destruct (rule "" "token-0") as (_ & _ & _ & Hnone & _).
    apply Hnone; [discriminate | reflexivity].
  - destruct (rule "vol-b" "token-1") as (_ & _ & _ & _ & Hconflict).
    apply (Hconflict Fixture.volA1); [discriminate | discriminate | reflexivity | discriminate].
Defined.

(** ** Update *)
Section Update_properties.
Context {Params : Type} {backend : Backend Params}.

(** C4, as the code has it.  When the exchange of an update succeeds at the
    level of the status and the body decodes, the update fails exactly when
    the decoded code is neither 0 nor 200 or the decoded message is not
    empty.  So code 0 with an empty message is a success, and any message,
    as in code 200 with the message partial, is a failure. *)
Theorem updateVolume_fails_iff (c : Client.t) (request : volumeRequest.t)
    (log : list (event Params)) (statusCode : Z) (response : bytes)
    (result : apiResponseCodeMessage.t) :
  answer log "PUT"
         (volumeRequest.Region request +:+ "/Volumes/" +:+ volumeRequest.VolumeID request)
         (Some (structs_Map request))
    = (statusCode, response, None) ->
  apiResponseChecker statusCode response "updateVolume" = None ->
  json_Unmarshal (A := apiResponseCodeMessage.t) response = Success result ->
  let code := apiResponseCodeMessage.Code result in
  let message := apiResponseCodeMessage.Message result in
  let failure := (updateVolume c request log).1 in
  (failure <> None <-> (code <> 0 /\ code <> 200) \/ message <> "")
  /\ (code = 0 -> message = "" -> failure = None)
  /\ (message <> "" ->
      failure = Some (fmt_Errorf "code: %d, message: %s" [OpInt code; OpStr message])).
Proof.
  intros Hanswer Hstatus Hdecode code message failure.
  unfold failure, updateVolume, bind, CallAPIMethod, ret.
  rewrite Hanswer, Hstatus, Hdecode. fold code message.
  destruct (decide ((code <> 0 /\ code <> 200) \/ message <> "")) as [Hbad|Hgood]; cbn.
  - split; [split; [auto | discriminate]|].
    split; [intros -> ->; exfalso; destruct Hbad as [[? _]|?]; contradiction | reflexivity].
  - split; [split; [intros Hne; contradiction | intros Hbad; contradiction]|].
    split; [reflexivity | intros Hmsg; exfalso; apply Hgood; auto].
Qed.

End Update_properties.

(** A body that decodes to code 200 and the message partial fails the
    update, with the error that quotes both. *)
Lemma updateVolume_fails_iff_witness :
  (updateVolume (backend := Fixture.scripted [] (200, Fixture.partial))
     Fixture.client (Fixture.wanted "vol-a" "") []).1
  = Some (fmt_Errorf "code: %d, message: %s" [OpInt 200; OpStr "partial"]).
Proof.
  destruct (updateVolume_fails_iff
              (backend := Fixture.scripted [] (200, Fixture.partial))
              Fixture.client (Fixture.wanted "vol-a" "") [] 200 Fixture.partial
              (apiResponseCodeMessage.mk 200 "partial") eq_refl eq_refl eq_refl)
    as (_ & _ & Hmessage).
  apply Hmessage. discriminate.
Defined.

(** C4 as stated fails: a body that decodes to the nonzero code 200 with an
    empty message is taken as a success. *)
Lemma updateVolume_code_200_is_success :
  let backend := Fixture.scripted [] (200, Fixture.accepted) in
  let failure := (updateVolume Fixture.client (Fixture.wanted "vol-a" "") []).1 in
  json_Unmarshal (A := apiResponseCodeMessage.t) Fixture.accepted
    = Success (apiResponseCodeMessage.mk 200 "")
  /\ failure = None
  /\ ~ (failure <> None <-> (200 <> 0 \/ "" <> "")).
Proof.
  intros backend failure.
  assert (Hrun : failure = None) by (vm_compute; reflexivity).
  split; [reflexivity|]. split; [exact Hrun|].
  intros [_ Hclaim]. apply Hclaim; [left; discriminate | exact Hrun].
Qed.

(** ** The retry loops *)
Section Retry_properties.
Context {Params : Type} {backend : Backend Params}.

Implicit Types (log h : list (event Params)) (request : volumeRequest.t).

(** One turn of the create loop, spelled out on the log. *)
Lemma createRetry_turn min max retries baseURL params responseError response log :
  createRetry min max (S retries) baseURL params responseError response log =
  let waited := log ++ [Sleep (draw log min max)] in
  let called := waited ++ [Call "POST" baseURL (Some params)] in
  match answer waited "POST" baseURL (Some params) with
  | (_, _, Some err) => (Returned (createVolumeResult.zero, Some err), called)
  | (statusCode, response, None) =>
    match json_Unmarshal (A := apiErrorResponse.t) response with
    | Failure _ => (Returned (createVolumeResult.zero, Some (fmt_Errorf response [])), called)
    | Success content =>
      if decide (apiErrorResponse.Code content = 0) then
        match json_Unmarshal (A := createVolumeResult.t) response with
        | Failure _ =>
            (Returned (createVolumeResult.zero, Some (fmt_Errorf response [])), called)
        | Success result => (Returned (result, None), called)
        end
      else if decide (apiErrorResponse.Code content <> 500) then
        (Returned (createVolumeResult.zero,
                   apiResponseChecker statusCode response "createVolume"), called)
      else createRetry min max retries baseURL params
             (apiResponseChecker statusCode response "createVolume") response called
    end
  end.
Proof.
  cbn [createRetry]. unfold bind, nextRandomInt, time_Sleep, CallAPIMethod, ret. cbn zeta.
  destruct (answer _ _ _ _) as [[statusCode response'] [err|]]; [reflexivity|].
  destruct (json_Unmarshal (A := apiErrorResponse.t) response'); [|reflexivity].
  repeat (destruct (decide _)); try reflexivity.
  destruct (json_Unmarshal (A := createVolumeResult.t) response'); reflexivity.
Qed.

(** One turn of the delete loop. *)
Lemma deleteRetry_turn retries baseURL responseError response log :
  deleteRetry (S retries) baseURL responseError response log =
  let waited := log ++ [Sleep (draw log 30 50)] in
  let called := waited ++ [Call "DELETE" baseURL None] in
  match answer waited "DELETE" baseURL None with
  | (_, _, Some err) => (Returned (Some err), called)
  | (statusCode, response, None) =>
    match json_Unmarshal (A := apiErrorResponse.t) response with
    | Failure _ => (Returned (Some (fmt_Errorf response [])), called)
    | Success content =>
      if decide (apiErrorResponse.Code content = 0) then
        match json_Unmarshal (A := createVolumeResult.t) response with
        | Failure _ => (Returned (Some (fmt_Errorf response [])), called)
        | Success _ => (Returned None, called)
        end
      else if decide (apiErrorResponse.Code content <> 500) then
        (Returned (apiResponseChecker statusCode response "deleteVolume"), called)
      else deleteRetry retries baseURL
             (apiResponseChecker statusCode response "deleteVolume") response called
    end
  end.
Proof.
  cbn [deleteRetry]. unfold bind, nextRandomInt, time_Sleep, CallAPIMethod, ret. cbn zeta.
  destruct (answer _ _ _ _) as [[statusCode response'] [err|]]; [reflexivity|].
  destruct (json_Unmarshal (A := apiErrorResponse.t) response'); [|reflexivity].
  repeat (destruct (decide _)); try reflexivity.
  destruct (json_Unmarshal (A := createVolumeResult.t) response'); reflexivity.
Qed.

(** Whatever the answers, a create loop only adds turns to the log: waits
    drawn between its bounds and the one call it was given, at most as many
    as its retries. *)
Lemma createRetry_log min max retries baseURL params responseError response log :
  exists waits,
    (createRetry min max retries baseURL params responseError response log).2
    = log ++ turns (Call "POST" baseURL (Some params)) waits
    /\ (length waits <= retries)%nat
    /\ Forall (fun s => exists h, s = draw h min max) waits.
Proof.
  revert responseError response log.
  induction retries as [|retries IH]; intros responseError response log.
  - exists []. cbn. rewrite app_nil_r. auto.
  - rewrite createRetry_turn. cbn zeta.
    assert (Hone : exists waits,
               (log ++ [Sleep (draw log min max)]) ++ [Call "POST" baseURL (Some params)]
               = log ++ turns (Call "POST" baseURL (Some params)) waits
               /\ (length waits <= S retries)%nat
               /\ Forall (fun s => exists h, s = draw h min max) waits).
    { exists [draw log min max]. cbn. rewrite <- app_assoc. repeat split; [lia|].
      constructor; [eauto | constructor]. }
    destruct (answer _ _ _ _) as [[statusCode response'] [err|]]; [exact Hone|].
    destruct (json_Unmarshal (A := apiErrorResponse.t) response'); [|exact Hone].
    destruct (decide _).
    { destruct (json_Unmarshal (A := createVolumeResult.t) response'); exact Hone. }
    destruct (decide _); [exact Hone|].
    destruct (IH (apiResponseChecker statusCode response' "createVolume") response'
                ((log ++ [Sleep (draw log min max)]) ++ [Call "POST" baseURL (Some params)]))
      as (waits & Hlog & Hlen & Hdrawn).
    exists (draw log min max :: waits). rewrite Hlog. cbn.
    rewrite <- !app_assoc. repeat split; [cbn; lia|].
    constructor; [eauto | exact Hdrawn].
Qed.

(** When every answer decodes to an envelope of code 500, the create loop
    uses up all its retries and falls through with the verdict of the
    response checker on the last answer. *)
Lemma createRetry_exhausted min max retries baseURL params responseError response log :
  (forall h, exists content,
      enveloped (answer (log ++ h) "POST" baseURL (Some params)) content
      /\ apiErrorResponse.Code content = 500) ->
  exists waits responseError' response',
    createRetry min max retries baseURL params responseError response log
    = (FellThrough responseError' response',
       log ++ turns (Call "POST" baseURL (Some params)) waits)
    /\ length waits = retries
    /\ Forall (fun s => exists h, s = draw h min max) waits
    /\ (retries <> O ->
        exists h statusCode,
          turns (Call "POST" baseURL (Some params)) waits
          = h ++ [Call "POST" baseURL (Some params)]
          /\ answer (log ++ h) "POST" baseURL (Some params) = (statusCode, response', None)
          /\ responseError' = apiResponseChecker statusCode response' "createVolume").
Proof.
  revert responseError response log.
  induction retries as [|retries IH]; intros responseError response log Hbusy.
  - exists [], responseError, response. cbn. rewrite app_nil_r.
    repeat split; auto. intros Hne; contradiction.
  - rewrite createRetry_turn. cbn zeta.
    set (s := draw log min max). set (call := Call "POST" baseURL (Some params)).
    destruct (Hbusy [Sleep s]) as (content & (Herr & Hdecode) & Hcode).
    destruct (answer (log ++ [Sleep s]) "POST" baseURL (Some params))
      as [[statusCode response1] err] eqn:Hanswer.
    cbn in Herr, Hdecode. subst err. rewrite Hdecode.
    rewrite decide_False by lia. rewrite decide_False by (intros Hne; lia).
    destruct (IH (apiResponseChecker statusCode response1 "createVolume") response1
                ((log ++ [Sleep s]) ++ [call]))
      as (waits & responseError' & response' & Hrun & Hlen & Hdrawn & Hlast).
    { intros h. rewrite <- !app_assoc. apply Hbusy. }
    exists (s :: waits), responseError', response'. rewrite Hrun.
    split; [cbn; rewrite <- !app_assoc; reflexivity|].
    split; [cbn; lia|].
    split; [constructor; [subst s; eauto | exact Hdrawn]|].
    intros _. destruct retries as [|retries].
    + destruct waits; [|discriminate]. cbn in Hrun. rewrite app_nil_r in Hrun.
      injection Hrun as <- <-.
      exists [Sleep s], statusCode. cbn. auto.
    + destruct Hlast as (h & statusCode' & Hturns & Hanswer' & Hverdict); [discriminate|].
      exists ([Sleep s; call] ++ h), statusCode'. fold call in Hturns. cbn [turns flat_map].
      fold (turns call waits). rewrite Hturns.
      split; [cbn; reflexivity|].
      rewrite <- !app_assoc in Hanswer'. cbn in Hanswer' |- *. auto.
Qed.

(** A create is its token phase followed by the submission. *)
Lemma createVolume_from_first_submission c request volType log request1 log1 :
  atFirstSubmission c request log = Some (request1, log1) ->
  createVolume c request volType log = submitVolume c request1 volType log1.
Proof.
  unfold atFirstSubmission, createVolume, bind.
  destruct (decide _); [|intros [= <- <-]; reflexivity].
  destruct (createVolumeCreationToken c request log) as [[creationToken [err|]] log'];
    [discriminate|].
  intros [= <- <-]. reflexivity.
Qed.

(** A create whose mint call fails submits nothing. *)
Lemma createVolume_without_submission c request volType log :
  atFirstSubmission c request log = None ->
  volumeRequest.CreationToken request = ""
  /\ exists failed,
      createVolume c request volType log
      = ((request, (createVolumeResult.zero, Some failed)),
         log ++ [Call "GET" (volumeRequest.Region request +:+ "/VolumeCreationToken")
                      (Some (structs_Map request))]).
Proof.
  unfold atFirstSubmission, createVolume, bind.
  destruct (decide _) as [Hempty|]; [|discriminate].
  unfold createVolumeCreationToken, bind, CallAPIMethod, ret. cbn zeta.
  destruct (answer _ _ _ _) as [[statusCode response] [err|]].
  { intros _. eauto. }
  destruct (apiResponseChecker _ _ _); [intros _; eauto|].
  destruct (json_Unmarshal (A := volumeResult.t) response); [discriminate|].
  intros _. eauto.
Qed.

Lemma attempts_turns (method baseURL : string) (params : option Params) (waits : list Z) :
  attempts method (turns (Call method baseURL params) waits) = length waits.
Proof.
  induction waits as [|s waits IH]; [reflexivity|].
  cbn. rewrite decide_True by reflexivity. fold (turns (Call method baseURL params) waits).
  rewrite IH. reflexivity.
Qed.


End Retry_properties.





(** ** The creation token and the request of the caller *)
Section Create_properties.
Context {Params : Type} {backend : Backend Params}.

Implicit Types (log h : list (event Params)) (request : volumeRequest.t).

Lemma Forall_carries_turns (params : Params) (method baseURL : string) (waits : list Z) :
  Forall (carries params) (turns (Call method baseURL (Some params)) waits).
Proof.
  induction waits as [|s waits IH]; [constructor|].
  cbn. constructor; [exact I|]. constructor; [reflexivity | exact IH].
Qed.

(** Runs the loop the goal mentions and reads off what it added to the log. *)
Local Ltac through_loop :=
  match goal with
  | |- context [createRetry ?min ?max ?n ?b ?p ?re ?resp ?l] =>
      let waits := fresh "waits" in
      let Hlog := fresh "Hlog" in
      let exit := fresh "exit" in
      let log' := fresh "log'" in
      destruct (createRetry_log min max n b p re resp l) as (waits & Hlog & _);
      destruct (createRetry min max n b p re resp l) as [exit log'];
      cbn in Hlog; subst log'; exists waits; rewrite <- app_assoc; cbn [app];
      destruct exit; [auto|]; destruct (_ || _); auto
  end.

(** From the first submission on, a create leaves the request with its
    network reference resolved and adds to the log the submission followed
    by turns of the same submission. *)
Lemma submitVolume_log c request volType log :
  exists waits,
    (submitVolume c request volType log).2
    = log ++ submission c request volType :: turns (submission c request volType) waits
    /\ (submitVolume c request volType log).1.1 = resolveNetwork c request.
Proof.
  unfold submitVolume, bind, CallAPIMethod, ret. cbn zeta.
  set (baseURL := volumeRequest.Region (resolveNetwork c request) +:+ "/" +:+ volType).
  set (params := structs_Map (resolveNetwork c request)).
  change (submission c request volType) with (Call "POST" baseURL (Some params)).
  assert (Hnone : log ++ [Call "POST" baseURL (Some params)]
                  = log ++ Call "POST" baseURL (Some params)
                           :: turns (Call "POST" baseURL (Some params)) []) by reflexivity.
  destruct (answer log "POST" baseURL (Some params)) as [[statusCode response] [err|]];
    [exists []; auto|].
  destruct (apiResponseChecker statusCode response "createVolume") as [responseError|];
    [|exists []; auto].
  destruct (json_Unmarshal (A := apiErrorResponse.t) response) as [content|];
    [|exists []; auto].
  destruct (decide (apiErrorResponse.Code content = 500)).
  - destruct (decide (apiErrorResponse.Message content = spawnJobCreationErrorMessage));
      [through_loop|].
    destruct (decide (apiErrorResponse.Message content = contextDeadlineExceededErrorMessage));
      [through_loop|].
    exists []. auto.
  - exists []. destruct (_ || _); auto.
Qed.

(** C2.  In every run of a create the creation token is settled once,
    before the first submission.  When the caller gives a token, nothing
    is minted: the log grows by the submission and its retries, all one
    and the same call carrying the request of the caller with its token.
    When the caller gives none, the first thing the run adds to the log is
    the single mint call.  If its answer is a transport error, is turned
    down by the response checker or does not decode, the create fails with
    that error and nothing is submitted.  Otherwise the token is the one
    decoded from that answer: the request is given it, the first
    submission and every retry are one and the same call carrying the
    parameters made of the request with that token, and the loop never
    mints again. *)
Theorem createVolume_token_settled_once (c : Client.t) (request : volumeRequest.t)
    (volType : string) (log : list (event Params)) :
  let run := createVolume c request volType log in
  let a := answer log "GET" (volumeRequest.Region request +:+ "/VolumeCreationToken")
                  (Some (structs_Map request)) in
  (volumeRequest.CreationToken request <> ""
   /\ exists waits : list Z,
        let post := submission c request volType in
        run.2 = log ++ post :: turns post waits
        /\ run.1.1 = resolveNetwork c request
        /\ volumeRequest.CreationToken run.1.1 = volumeRequest.CreationToken request
        /\ Forall (carries (structs_Map run.1.1)) (post :: turns post waits))
  \/ (volumeRequest.CreationToken request = ""
      /\ ((exists failed : error,
             (a.2 = Some failed
              \/ a.2 = None
                 /\ apiResponseChecker a.1.1 a.1.2 "createVolumeCreationToken" = Some failed
              \/ a.2 = None
                 /\ apiResponseChecker a.1.1 a.1.2 "createVolumeCreationToken" = None
                 /\ json_Unmarshal (A := volumeResult.t) a.1.2 = Failure failed)
             /\ run = ((request, (createVolumeResult.zero, Some failed)),
                       log ++ [mintCall request]))
          \/ (exists (minted : volumeResult.t) (waits : list Z),
                a.2 = None
                /\ apiResponseChecker a.1.1 a.1.2 "createVolumeCreationToken" = None
                /\ json_Unmarshal (A := volumeResult.t) a.1.2 = Success minted
                /\ let creationToken := volumeResult.CreationToken minted in
                   let request1 := volumeRequest.set_CreationToken creationToken request in
                   let post := submission c request1 volType in
                   run.2 = log ++ mintCall request :: post :: turns post waits
                   /\ run.1.1 = resolveNetwork c request1
                   /\ volumeRequest.CreationToken run.1.1 = creationToken
                   /\ Forall (carries (structs_Map run.1.1)) (post :: turns post waits)))).
Proof.
  intros run a. subst run a. unfold createVolume, bind.
  destruct (decide (volumeRequest.CreationToken request = "")) as [Hempty|Hgiven].
  - right. split; [exact Hempty|].
    unfold createVolumeCreationToken, bind, CallAPIMethod, ret. cbn zeta.
    fold (mintCall request).
    destruct (answer log "GET" (volumeRequest.Region request +:+ "/VolumeCreationToken")
                     (Some (structs_Map request)))
      as [[statusCode response] [err|]]; cbn [fst snd].
    { left. exists err. split; [left; reflexivity | reflexivity]. }
    destruct (apiResponseChecker statusCode response "createVolumeCreationToken")
      as [responseError|] eqn:Hchecker.
    { left. exists responseError. split; [right; left; auto | reflexivity]. }
    destruct (json_Unmarshal (A := volumeResult.t) response) as [minted|err] eqn:Hdecode.
    2: { left. exists err. split; [right; right; auto | reflexivity]. }
    right. exists minted.
    destruct (submitVolume_log c
                (volumeRequest.set_CreationToken (volumeResult.CreationToken minted) request)
                volType (log ++ [mintCall request])) as (waits & Hlog & Hrequest).
    exists waits. split; [reflexivity|]. split; [reflexivity|]. split; [reflexivity|].
    cbn zeta. rewrite Hlog, Hrequest, <- app_assoc.
    split; [reflexivity|]. split; [reflexivity|].
    split; [destruct request; reflexivity|].
    constructor; [reflexivity | apply Forall_carries_turns].
  - left. split; [exact Hgiven|].
    destruct (submitVolume_log c request volType log) as (waits & Hlog & Hrequest).
    exists waits. cbn zeta. rewrite Hlog, Hrequest.
    split; [reflexivity|]. split; [reflexivity|].
    split; [destruct request; reflexivity|].
    constructor; [reflexivity | apply Forall_carries_turns].
Qed.


End Create_properties.

(** A create without a token, on a control plane that issues token-9 and is
    out of jobs once: the log is the mint call followed by submissions that
    all carry token-9, and the caller finds that token in the request. *)
Lemma createVolume_token_settled_once_witness :
  let backend :=
    Fixture.scripted [(200, Fixture.tokenIssued); (500, Fixture.busyCreating)]
                     (200, Fixture.created) in
  let request := Fixture.wanted "vol-a" "" in
  let run := createVolume Fixture.client request "Volumes" [] in
  let post := submission Fixture.client
                (volumeRequest.set_CreationToken "token-9" request) "Volumes" in
  exists waits : list Z,
    run.2 = mintCall request :: post :: turns post waits
    /\ volumeRequest.CreationToken run.1.1 = "token-9"
    /\ Forall (carries (structs_Map run.1.1)) (post :: turns post waits).
Proof.
  intros backend request run post.
  destruct (createVolume_token_settled_once (backend := backend)
              Fixture.client request "Volumes" [])
    as [[Hgiven _] | [_ [(failed & Hfailed & _) | (minted & waits & _ & _ & Hminted & Hrun)]]].
  - exfalso. apply Hgiven. reflexivity.
  - exfalso. destruct Hfailed as [Herr | [[_ Hchecker] | (_ & _ & Hdecode)]];
      [vm_compute in Herr | vm_compute in Hchecker | vm_compute in Hdecode]; discriminate.
  - assert (Htoken : minted = Fixture.volume "" "token-9")
      by (vm_compute in Hminted; injection Hminted as <-; reflexivity).
    subst minted. destruct Hrun as (Hlog & _ & Htoken & Hcarries).
    exists waits. split; [exact Hlog|]. split; [exact Htoken | exact Hcarries].
Defined.


(** ** The text of the error made of a body *)

(** A format without a percent sign and without operands prints as it is. *)
Lemma Sprintf0_plain (text : string) : plain text = true -> Sprintf0 text = Some text.
Proof.
  induction text as [|c rest IH]; [reflexivity|].
  cbn [plain Sprintf0]. destruct (Ascii.eqb c percent); [discriminate|].
  cbn [negb andb]. intros Hrest. rewrite (IH Hrest). reflexivity.
Qed.

(** ** What a response does to a create, a delete and their loops *)
Section Classification_properties.
Context {Params : Type} {backend : Backend Params}.

Implicit Types (log h : list (event Params)) (request : volumeRequest.t).

(** The first answer to a create that the response checker turns down and
    whose envelope decodes: the three ways on. *)
Lemma submitVolume_refused c request volType log responseError content :
  let baseURL := volumeRequest.Region request +:+ "/" +:+ volType in
  let params := structs_Map (resolveNetwork c request) in
  let called := log ++ [submission c request volType] in
  refused "createVolume" (answer log "POST" baseURL (Some params)) responseError content ->
  apiErrorResponse.Code content = 500 ->
  submitVolume c request volType log =
  if decide (apiErrorResponse.Message content = spawnJobCreationErrorMessage) then
    match createRetry 30 50 10 baseURL params (Some responseError)
            (answer log "POST" baseURL (Some params)).1.2 called with
    | (Returned r, log') => ((resolveNetwork c request, r), log')
    | (FellThrough responseError' _, log') =>
        ((resolveNetwork c request, (createVolumeResult.zero, responseError')), log')
    end
  else if decide (apiErrorResponse.Message content = contextDeadlineExceededErrorMessage) then
    match createRetry 5 10 5 baseURL params (Some responseError)
            (answer log "POST" baseURL (Some params)).1.2 called with
    | (Returned r, log') => ((resolveNetwork c request, r), log')
    | (FellThrough responseError' _, log') =>
        ((resolveNetwork c request, (createVolumeResult.zero, responseError')), log')
    end
  else ((resolveNetwork c request, (createVolumeResult.zero, Some responseError)), called).
Proof.
  intros baseURL params called (Herr & Hstatus & Hdecode) Hcode.
  unfold submitVolume, bind, CallAPIMethod, ret. cbn zeta.
  change (volumeRequest.Region (resolveNetwork c request) +:+ "/" +:+ volType) with baseURL.
  fold params. change (Call "POST" baseURL (Some params)) with (submission c request volType).
  fold called.
  destruct (answer log "POST" baseURL (Some params)) as [[statusCode response] err].
  cbn in Herr, Hstatus, Hdecode. cbn [fst snd]. subst err. rewrite Hstatus, Hdecode, Hcode.
  rewrite decide_True by reflexivity.
  change ((300 <=? 500) || (500 <? 200)) with true. cbn iota.
  repeat (destruct (decide _)); try reflexivity;
    match goal with
    | |- context [createRetry ?lo ?hi ?n ?u ?p ?re ?resp ?l] =>
        destruct (createRetry lo hi n u p re resp l) as [[r|responseError' response'] log']
    end; reflexivity.
Qed.

(** The same for a delete. *)
Lemma deleteVolume_refused c request log responseError content :
  let baseURL :=
    volumeRequest.Region request +:+ "/Volumes/" +:+ volumeRequest.VolumeID request in
  let called := log ++ [removal request] in
  refused "deleteVolume" (answer log "DELETE" baseURL None) responseError content ->
  apiErrorResponse.Code content = 500 ->
  deleteVolume c request log =
  if decide (apiErrorResponse.Message content = spawnJobDeletionErrorMessage) then
    match deleteRetry 10 baseURL (Some responseError)
            (answer log "DELETE" baseURL None).1.2 called with
    | (Returned r, log') => (r, log')
    | (FellThrough responseError' _, log') => (responseError', log')
    end
  else (Some responseError, called).
Proof.
  intros baseURL called (Herr & Hstatus & Hdecode) Hcode.
  unfold deleteVolume, bind, CallAPIMethod, ret. cbn zeta.
  fold baseURL. change (Call "DELETE" baseURL None) with (removal (Params := Params) request). fold called.
  destruct (answer log "DELETE" baseURL None) as [[statusCode response] err].
  cbn in Herr, Hstatus, Hdecode. cbn [fst snd]. subst err. rewrite Hstatus, Hdecode, Hcode.
  rewrite decide_True by reflexivity.
  change ((300 <=? 500) || (500 <? 200)) with true. cbn iota.
  destruct (decide _); [|reflexivity].
  match goal with
  | |- context [deleteRetry ?n ?u ?re ?resp ?l] =>
      destruct (deleteRetry n u re resp l) as [[r|responseError' response'] log']
  end; reflexivity.
Qed.

(** C3, as the code has it.  A response that the response checker turns
    down, with an envelope of code 500 and a message that is none of the
    known literals, is fatal on the first attempt: the create, and the
    delete, fail at once with the error of the response checker, after the
    one call and no sleep.  Inside a retry loop the message is not read: an
    answer whose envelope has code 500, whatever its message and status,
    takes one retry from the budget and the loop goes on. *)
Theorem unmatched_500_fatal_on_first_attempt_only :
  (forall (c : Client.t) (request : volumeRequest.t) (volType : string)
          (log : list (event Params)) (request1 : volumeRequest.t)
          (log1 : list (event Params)) (responseError : error)
          (content : apiErrorResponse.t),
      atFirstSubmission c request log = Some (request1, log1) ->
      refused "createVolume"
        (answer log1 "POST" (volumeRequest.Region request1 +:+ "/" +:+ volType)
                (Some (structs_Map (resolveNetwork c request1))))
        responseError content ->
      apiErrorResponse.Code content = 500 ->
      apiErrorResponse.Message content <> spawnJobCreationErrorMessage ->
      apiErrorResponse.Message content <> contextDeadlineExceededErrorMessage ->
      createVolume c request volType log
      = ((resolveNetwork c request1, (createVolumeResult.zero, Some responseError)),
         log1 ++ [submission c request1 volType]))
  /\ (forall (c : Client.t) (request : volumeRequest.t) (log : list (event Params))
             (responseError : error) (content : apiErrorResponse.t),
      refused "deleteVolume"
        (answer log "DELETE"
           (volumeRequest.Region request +:+ "/Volumes/" +:+ volumeRequest.VolumeID request)
           None)
        responseError content ->
      apiErrorResponse.Code content = 500 ->
      apiErrorResponse.Message content <> spawnJobDeletionErrorMessage ->
      deleteVolume c request log = (Some responseError, log ++ [removal request]))
  /\ (forall (min max : Z) (retries : nat) (baseURL : string) (params : Params)
             (responseError : option error) (response : bytes)
             (log : list (event Params)) (content : apiErrorResponse.t),
      let waited := log ++ [Sleep (draw log min max)] in
      let a := answer waited "POST" baseURL (Some params) in
      enveloped a content ->
      apiErrorResponse.Code content = 500 ->
      createRetry min max (S retries) baseURL params responseError response log
      = createRetry min max retries baseURL params
          (apiResponseChecker a.1.1 a.1.2 "createVolume") a.1.2
          (waited ++ [Call "POST" baseURL (Some params)]))
  /\ (forall (retries : nat) (baseURL : string)
             (responseError : option error) (response : bytes)
             (log : list (event Params)) (content : apiErrorResponse.t),
      let waited := log ++ [Sleep (draw log 30 50)] in
      let a := answer waited "DELETE" baseURL None in
      enveloped a content ->
      apiErrorResponse.Code content = 500 ->
      deleteRetry (S retries) baseURL responseError response log
      = deleteRetry retries baseURL
          (apiResponseChecker a.1.1 a.1.2 "deleteVolume") a.1.2
          (waited ++ [Call "DELETE" baseURL None])).
Proof.
  split; [|split; [|split]].
  - intros c request volType log request1 log1 responseError content
           Hfirst Hrefused Hcode Hcreate Hdeadline.
    rewrite (createVolume_from_first_submission _ _ _ _ _ _ Hfirst).
    rewrite (submitVolume_refused _ _ _ _ _ _ Hrefused Hcode).
    rewrite !decide_False by assumption. reflexivity.
  - intros c request log responseError content Hrefused Hcode Hdelete.
    rewrite (deleteVolume_refused _ _ _ _ _ Hrefused Hcode).
    rewrite decide_False by assumption. reflexivity.
  - intros min max retries baseURL params responseError response log content waited a
           (Herr & Hdecode) Hcode.
    rewrite createRetry_turn. cbn zeta. fold waited. fold a.
    destruct a as [[statusCode response1] err]. cbn in Herr, Hdecode. cbn [fst snd].
    subst err. rewrite Hdecode, Hcode. reflexivity.
  - intros retries baseURL responseError response log content waited a
           (Herr & Hdecode) Hcode.
    rewrite deleteRetry_turn. cbn zeta. fold waited. fold a.
    destruct a as [[statusCode response1] err]. cbn in Herr, Hdecode. cbn [fst snd].
    subst err. rewrite Hdecode, Hcode. reflexivity.
Qed.

(** C6, as the code has it.  A retried call whose answer decodes to the
    error envelope with code 0 ends the loop at that turn, after the one
    sleep and the one call, with no further retry: the create returns the
    body decoded as a createVolumeResult, and the delete returns no error;
    when the body does not decode as a createVolumeResult, both fail with
    the error fmt.Errorf makes of the raw body taken as the format, with no
    operand.  The text of that error is the raw body whenever the body
    holds no percent sign. *)
Theorem retried_code_0_ends_the_loop :
  (forall (min max : Z) (retries : nat) (baseURL : string) (params : Params)
          (responseError : option error) (response : bytes)
          (log : list (event Params)) (content : apiErrorResponse.t),
      let waited := log ++ [Sleep (draw log min max)] in
      let a := answer waited "POST" baseURL (Some params) in
      enveloped a content ->
      apiErrorResponse.Code content = 0 ->
      createRetry min max (S retries) baseURL params responseError response log
      = (Returned
           match json_Unmarshal (A := createVolumeResult.t) a.1.2 with
           | Success result => (result, None)
           | Failure _ => (createVolumeResult.zero, Some (fmt_Errorf a.1.2 []))
           end,
         waited ++ [Call "POST" baseURL (Some params)]))
  /\ (forall (retries : nat) (baseURL : string)
             (responseError : option error) (response : bytes)
             (log : list (event Params)) (content : apiErrorResponse.t),
      let waited := log ++ [Sleep (draw log 30 50)] in
      let a := answer waited "DELETE" baseURL None in
      enveloped a content ->
      apiErrorResponse.Code content = 0 ->
      deleteRetry (S retries) baseURL responseError response log
      = (Returned
           match json_Unmarshal (A := createVolumeResult.t) a.1.2 with
           | Success _ => None
           | Failure _ => Some (fmt_Errorf a.1.2 [])
           end,
         waited ++ [Call "DELETE" baseURL None]))
  /\ (forall body : bytes,
      plain body = true -> errorText (fmt_Errorf body []) = Some body).
Proof.
  split; [|split; [|exact Sprintf0_plain]].
  - intros min max retries baseURL params responseError response log content waited a
           (Herr & Hdecode) Hcode.
    rewrite createRetry_turn. cbn zeta. fold waited. fold a.
    destruct a as [[statusCode response1] err]. cbn in Herr, Hdecode. cbn [fst snd].
    subst err. rewrite Hdecode. rewrite decide_True by exact Hcode.
    destruct (json_Unmarshal (A := createVolumeResult.t) response1); reflexivity.
  - intros retries baseURL responseError response log content waited a
           (Herr & Hdecode) Hcode.
    rewrite deleteRetry_turn. cbn zeta. fold waited. fold a.
    destruct a as [[statusCode response1] err]. cbn in Herr, Hdecode. cbn [fst snd].
    subst err. rewrite Hdecode. rewrite decide_True by exact Hcode.
    destruct (json_Unmarshal (A := createVolumeResult.t) response1); reflexivity.
Qed.

(** A response that the response checker turns down and whose body
    does not decode to the error envelope is fatal: the create, and the
    delete, fail at once with the error fmt.Errorf makes of the raw body
    taken as the format, after the one call and with no sleep and no retry.  The same
    holds inside the retry loops, whatever the status: an answer whose body
    does not decode ends the loop at that turn with that error. *)
Theorem undecodable_body_is_fatal :
  (forall (c : Client.t) (request : volumeRequest.t) (volType : string)
          (log : list (event Params)) (request1 : volumeRequest.t)
          (log1 : list (event Params)) (statusCode : Z) (response : bytes)
          (responseError decodeError : error),
      atFirstSubmission c request log = Some (request1, log1) ->
      answer log1 "POST" (volumeRequest.Region request1 +:+ "/" +:+ volType)
             (Some (structs_Map (resolveNetwork c request1)))
        = (statusCode, response, None) ->
      apiResponseChecker statusCode response "createVolume" = Some responseError ->
      json_Unmarshal (A := apiErrorResponse.t) response = Failure decodeError ->
      createVolume c request volType log
      = ((resolveNetwork c request1,
          (createVolumeResult.zero, Some (fmt_Errorf response []))),
         log1 ++ [submission c request1 volType]))
  /\ (forall (c : Client.t) (request : volumeRequest.t) (log : list (event Params))
             (statusCode : Z) (response : bytes) (responseError decodeError : error),
      answer log "DELETE"
             (volumeRequest.Region request +:+ "/Volumes/" +:+ volumeRequest.VolumeID request)
             None
        = (statusCode, response, None) ->
      apiResponseChecker statusCode response "deleteVolume" = Some responseError ->
      json_Unmarshal (A := apiErrorResponse.t) response = Failure decodeError ->
      deleteVolume c request log
      = (Some (fmt_Errorf response []), log ++ [removal request]))
  /\ (forall (min max : Z) (retries : nat) (baseURL : string) (params : Params)
             (responseError : option error) (response : bytes)
             (log : list (event Params)) (statusCode : Z) (response1 : bytes)
             (decodeError : error),
      let waited := log ++ [Sleep (draw log min max)] in
      answer waited "POST" baseURL (Some params) = (statusCode, response1, None) ->
      json_Unmarshal (A := apiErrorResponse.t) response1 = Failure decodeError ->
      createRetry min max (S retries) baseURL params responseError response log
      = (Returned (createVolumeResult.zero, Some (fmt_Errorf response1 [])),
         waited ++ [Call "POST" baseURL (Some params)]))
  /\ (forall (retries : nat) (baseURL : string)
             (responseError : option error) (response : bytes)
             (log : list (event Params)) (statusCode : Z) (response1 : bytes)
             (decodeError : error),
      let waited := log ++ [Sleep (draw log 30 50)] in
      answer waited "DELETE" baseURL None = (statusCode, response1, None) ->
      json_Unmarshal (A := apiErrorResponse.t) response1 = Failure decodeError ->
      deleteRetry (S retries) baseURL responseError response log
      = (Returned (Some (fmt_Errorf response1 [])),
         waited ++ [Call "DELETE" baseURL None])).
Proof.
  split; [|split; [|split]].
  - intros c request volType log request1 log1 statusCode response responseError
           decodeError Hfirst Hanswer Hstatus Hdecode.
    rewrite (createVolume_from_first_submission _ _ _ _ _ _ Hfirst).
    unfold submitVolume, bind, CallAPIMethod, ret. cbn zeta.
    change (volumeRequest.Region (resolveNetwork c request1))
      with (volumeRequest.Region request1).
    rewrite Hanswer, Hstatus, Hdecode. reflexivity.
  - intros c request log statusCode response responseError decodeError
           Hanswer Hstatus Hdecode.
    unfold deleteVolume, bind, CallAPIMethod, ret. cbn zeta.
    rewrite Hanswer, Hstatus, Hdecode. reflexivity.
  - intros min max retries baseURL params responseError response log statusCode response1
           decodeError waited Hanswer Hdecode.
    rewrite createRetry_turn. cbn zeta. fold waited. rewrite Hanswer, Hdecode. reflexivity.
  - intros retries baseURL responseError response log statusCode response1
           decodeError waited Hanswer Hdecode.
    rewrite deleteRetry_turn. cbn zeta. fold waited. rewrite Hanswer, Hdecode. reflexivity.
Qed.

End Classification_properties.

(** A code 500 with the message disk failure on the first attempt: the
    create and the delete fail at once, each after its one call. *)
Lemma unmatched_500_fatal_on_first_attempt_only_witness :
  let backend := Fixture.scripted [] (500, Fixture.diskFailure) in
  let request := Fixture.wanted "vol-a" "token-1" in
  (exists responseError,
      createVolume Fixture.client request "Volumes" []
      = ((resolveNetwork Fixture.client request,
          (createVolumeResult.zero, Some responseError)),
         [submission Fixture.client request "Volumes"]))
  /\ (exists responseError,
      deleteVolume Fixture.client request [] = (Some responseError, [removal request])).
Proof.
  intros backend request.
  destruct (unmatched_500_fatal_on_first_attempt_only (backend := backend))
    as (Hcreate & Hdelete & _ & _).
  split.
  - eexists.
    apply (Hcreate Fixture.client request "Volumes" [] request [] _
             (apiErrorResponse.mk 500 "disk failure") eq_refl).
    + split; [reflexivity | split; reflexivity].
    + reflexivity.
    + discriminate.
    + discriminate.
  - eexists.
    apply (Hdelete Fixture.client request [] _ (apiErrorResponse.mk 500 "disk failure")).
    + split; [reflexivity | split; reflexivity].
    + reflexivity.
    + discriminate.
Defined.

(** C3 as stated fails inside the loop: after a first answer of job
    exhaustion, a second answer of code 500 with the message disk failure
    is not fatal; the create submits a third time and returns the volume
    that the third answer reports. *)
Lemma unmatched_500_is_retried_in_the_loop :
  let backend :=
    Fixture.scripted [(500, Fixture.busyCreating); (500, Fixture.diskFailure)]
                     (200, Fixture.created) in
  let run := createVolume Fixture.client (Fixture.wanted "vol-a" "token-1") "Volumes" [] in
  let post := submission Fixture.client (Fixture.wanted "vol-a" "token-1") "Volumes" in
  (exists responseError,
      refused "createVolume"
        (answer [post; Sleep (draw [post] 30 50)] "POST" "us-east4/Volumes"
           (Some (structs_Map
                    (resolveNetwork Fixture.client (Fixture.wanted "vol-a" "token-1")))))
        responseError (apiErrorResponse.mk 500 "disk failure"))
  /\ "disk failure" <> spawnJobCreationErrorMessage
  /\ "disk failure" <> spawnJobDeletionErrorMessage
  /\ "disk failure" <> contextDeadlineExceededErrorMessage
  /\ attempts "POST" run.2 = 3%nat
  /\ run.1.2
     = (createVolumeResult.mk (listVolumeJobIDResult.mk (listVolumeIDResult.mk "vol-1")) 0 "",
        None).
Proof.
  intros backend run post.
  split; [eexists; split; [reflexivity|split; reflexivity]|].
  split; [discriminate|]. split; [discriminate|]. split; [discriminate|].
  split; vm_compute; reflexivity.
Qed.

(** Job exhaustion, then the success envelope of a create: the first turn
    of the loop ends it with the decoded result, after one sleep and one
    more submission. *)
Lemma retried_code_0_ends_the_loop_witness :
  let backend := Fixture.scripted [(500, Fixture.busyCreating)] (200, Fixture.created) in
  let request := Fixture.wanted "vol-a" "token-1" in
  let post := submission Fixture.client request "Volumes" in
  createRetry 30 50 10 "us-east4/Volumes" (structs_Map (resolveNetwork Fixture.client request))
    None Fixture.busyCreating [post]
  = (Returned
       (createVolumeResult.mk (listVolumeJobIDResult.mk (listVolumeIDResult.mk "vol-1")) 0 "",
        None),
     [post; Sleep (draw [post] 30 50); post]).
Proof.
  intros backend request post.
  destruct (retried_code_0_ends_the_loop (backend := backend)) as (Hcreate & _).
  apply (Hcreate 30 50 9%nat "us-east4/Volumes"
           (structs_Map (resolveNetwork Fixture.client request)) None Fixture.busyCreating
           [post] (apiErrorResponse.mk 0 "")).
  - split; reflexivity.
  - reflexivity.
Defined.

(** C6 as stated fails: a retried answer that decodes to the envelope with
    code 0 and an empty message, but whose response member is a number,
    makes the create fail with the raw body. *)
Lemma retried_code_0_can_fail :
  let backend := Fixture.scripted [(500, Fixture.busyCreating)] (200, Fixture.misshapen) in
  let request := Fixture.wanted "vol-a" "token-1" in
  let post := submission Fixture.client request "Volumes" in
  let run := createVolume Fixture.client request "Volumes" [] in
  enveloped
    (answer [post; Sleep (draw [post] 30 50)] "POST" "us-east4/Volumes"
       (Some (structs_Map (resolveNetwork Fixture.client request))))
    (apiErrorResponse.mk 0 "")
  /\ run.2 = [post; Sleep (draw [post] 30 50); post]
  /\ run.1.2 = (createVolumeResult.zero, Some (fmt_Errorf Fixture.misshapen []))
  /\ run.1.2.2 <> None.
Proof.
  intros backend request post run.
  assert (Hrun : run.1.2 = (createVolumeResult.zero, Some (fmt_Errorf Fixture.misshapen [])))
    by (vm_compute; reflexivity).
  split; [split; reflexivity|]. split; [vm_compute; reflexivity|].
  split; [exact Hrun|]. rewrite Hrun. discriminate.
Qed.

(** A 502 with an HTML page for a body: the create and the delete fail at
    once with the error made of that page. *)
Lemma undecodable_body_is_fatal_witness :
  let backend := Fixture.scripted [] (502, Fixture.badGateway) in
  let request := Fixture.wanted "vol-a" "token-1" in
  createVolume Fixture.client request "Volumes" []
  = ((resolveNetwork Fixture.client request,
      (createVolumeResult.zero, Some (fmt_Errorf Fixture.badGateway []))),
     [submission Fixture.client request "Volumes"])
  /\ deleteVolume Fixture.client request []
     = (Some (fmt_Errorf Fixture.badGateway []), [removal request]).
Proof.
  intros backend request.
  destruct (undecodable_body_is_fatal (backend := backend)) as (Hcreate & Hdelete & _ & _).
  split.
  - apply (Hcreate Fixture.client request "Volumes" [] request [] 502 Fixture.badGateway
             (fmt_Errorf "%s request failed, code: %d, message: %s"
                [OpStr "createVolume"; OpInt 502; OpStr Fixture.badGateway])
             (errorString "json: cannot unmarshal"));
      reflexivity.
  - apply (Hdelete Fixture.client request [] 502 Fixture.badGateway
             (fmt_Errorf "%s request failed, code: %d, message: %s"
                [OpStr "deleteVolume"; OpInt 502; OpStr Fixture.badGateway])
             (errorString "json: cannot unmarshal"));
      reflexivity.
Defined.

(** C7, at a body that holds a percent sign.  A 502 whose body is a page
    with the text 100%down is turned down by the response checker and does
    not decode to the error envelope.  The create and the delete fail at
    once, after the one call and with no sleep and no retry, as the claim
    has it; the same holds for such an answer inside a retry loop.  But the
    error is made by fmt.Errorf with the body as its format: its text reads
    the letter after the percent sign as a verb without operand, and is not
    the raw body text. *)
Theorem undecodable_body_with_a_verb_is_reworded :
  let backend := Fixture.scripted [] (502, Fixture.outage) in
  let request := Fixture.wanted "vol-a" "token-1" in
  let failure := fmt_Errorf Fixture.outage [] in
  (exists responseError,
      apiResponseChecker 502 Fixture.outage "createVolume" = Some responseError)
  /\ (exists decodeError,
      json_Unmarshal (A := apiErrorResponse.t) Fixture.outage = Failure decodeError)
  /\ createVolume Fixture.client request "Volumes" []
     = ((resolveNetwork Fixture.client request, (createVolumeResult.zero, Some failure)),
        [submission Fixture.client request "Volumes"])
  /\ deleteVolume Fixture.client request [] = (Some failure, [removal request])
  /\ createRetry 30 50 10 "us-east4/Volumes"
       (structs_Map (resolveNetwork Fixture.client request)) None Fixture.busyCreating []
     = (Returned (createVolumeResult.zero, Some failure),
        [Sleep (draw [] 30 50); submission Fixture.client request "Volumes"])
  /\ errorText failure = Some "<html>100%!d(MISSING)own</html>"
  /\ errorText failure <> Some Fixture.outage.
Proof.
  intros backend request failure.
  split; [eexists; reflexivity|]. split; [eexists; reflexivity|].
  split; [vm_compute; reflexivity|]. split; [vm_compute; reflexivity|].
  split; [vm_compute; reflexivity|]. split; [vm_compute; reflexivity|].
  vm_compute. discriminate.
Qed.

(** ** Two runs, end to end *)

(** Three answers of job exhaustion and then the success envelope: four
    submissions in all, three sleeps, and the decoded result. *)
Example createVolume_busy_three_times :
  let backend :=
    Fixture.scripted [(500, Fixture.busyCreating); (500, Fixture.busyCreating);
                      (500, Fixture.busyCreating)] (200, Fixture.created) in
  let run := createVolume Fixture.client (Fixture.wanted "vol-a" "token-1") "Volumes" [] in
  attempts "POST" run.2 = 4%nat
  /\ sleeps run.2 = [31; 33; 35]
  /\ run.1.2
     = (createVolumeResult.mk (listVolumeJobIDResult.mk (listVolumeIDResult.mk "vol-1")) 0 "",
        None).
Proof. repeat split; vm_compute; reflexivity. Qed.

(** A create without a token: the token is minted by the first call, then
    the submission goes out and, the control plane being out of jobs once,
    goes out again; both submissions carry the minted token. *)
Example createVolume_mints_then_retries :
  let backend :=
    Fixture.scripted [(200, Fixture.tokenIssued); (500, Fixture.busyCreating)]
                     (200, Fixture.created) in
  let request := Fixture.wanted "vol-a" "" in
  let run := createVolume Fixture.client request "Volumes" [] in
  let post := submission Fixture.client
                (volumeRequest.set_CreationToken "token-9" request) "Volumes" in
  run.2 = [mintCall request; post; Sleep 32; post]
  /\ volumeRequest.CreationToken run.1.1 = "token-9"
  /\ carries run.1.1 post.
Proof. repeat split; vm_compute; reflexivity. Qed.

(** * Further properties *)

(** ** The request builder: what it reads and how it fails *)
Section BuildHTTPReq_more.
Context {P : Type} {issuer : restapi.Collaborators P}.

(** X1.  For GET and DELETE the parameters are never encoded: two requests that
    differ in their parameters only, even parameters that have no JSON
    encoding, build the same thing. *)
Theorem BuildHTTPReq_fetch_ignores_params (method : string) (params params' : P)
    (host serviceAccount credentials audience baseURL : string) :
  method = "GET" \/ method = "DELETE" ->
  restapi.BuildHTTPReq (restapi.mkRequest method params)
    host serviceAccount credentials audience baseURL
  = restapi.BuildHTTPReq (restapi.mkRequest method params')
      host serviceAccount credentials audience baseURL.
Proof.
  intros Hfetch. unfold restapi.BuildHTTPReq. cbn [restapi.Method restapi.Params].
  rewrite !decide_False by (intros [? ?]; destruct Hfetch; contradiction). reflexivity.
Qed.

(** X2.  For any other method a failure of the JSON encoder is what the builder
    returns, unwrapped, whatever the credentials are: the key material is
    not looked at before the body is encoded. *)
Theorem BuildHTTPReq_encoding_failure_first (r : restapi.Request P)
    (host serviceAccount credentials audience baseURL : string) (err : error) :
  restapi.Method r <> "GET" -> restapi.Method r <> "DELETE" ->
  restapi.json_Marshal (restapi.Params r) = Failure err ->
  restapi.BuildHTTPReq r host serviceAccount credentials audience baseURL = Failure err.
Proof.
  intros Hget Hdelete Hjson. unfold restapi.BuildHTTPReq.
  rewrite decide_True by auto. rewrite Hjson. reflexivity.
Qed.

(** X3.  Inline credentials win over the key file: when credentials are given,
    the path of the service account file does not matter. *)
Theorem BuildHTTPReq_inline_credentials_win (r : restapi.Request P)
    (host serviceAccount serviceAccount' credentials audience baseURL : string) :
  credentials <> "" ->
  restapi.BuildHTTPReq r host serviceAccount credentials audience baseURL
  = restapi.BuildHTTPReq r host serviceAccount' credentials audience baseURL.
Proof.
  intros Hinline. unfold restapi.BuildHTTPReq, restapi.keyMaterial.
  rewrite !(decide_True (P := credentials <> "")) by exact Hinline. reflexivity.
Qed.

(** X4.  Without inline credentials, a key file that cannot be read fails the
    builder with the error that wraps the cause, provided the request
    itself could be made. *)
Theorem BuildHTTPReq_unreadable_key_file (r : restapi.Request P)
    (host serviceAccount audience baseURL : string) (cause : error) :
  (restapi.Method r = "GET" \/ restapi.Method r = "DELETE"
   \/ exists bodyJSON, restapi.json_Marshal (restapi.Params r) = Success bodyJSON) ->
  restapi.refuse (restapi.Method r) (host +:+ baseURL) = None ->
  restapi.ioutil_ReadFile serviceAccount = Failure cause ->
  restapi.BuildHTTPReq r host serviceAccount "" audience baseURL
  = Failure (fmt_Errorf "Unable to read service account key file  %v" [OpErr cause]).
Proof.
  intros Hbody Hnew Hread. unfold restapi.BuildHTTPReq, http.NewRequest, restapi.keyMaterial.
  rewrite Hnew, Hread.
  destruct (decide (restapi.Method r <> "GET" /\ restapi.Method r <> "DELETE"))
    as [[Hget Hdelete]|_]; [|reflexivity].
  destruct Hbody as [?|[?|[bodyJSON ->]]]; [contradiction | contradiction | reflexivity].
Qed.

(** X5.  A request that is built has the URL that http.NewRequest derives
    from the host followed by the path, keeps a method that is not empty,
    and carries the two headers of the builder and no other. *)
Theorem BuildHTTPReq_url_and_only_two_headers (r : restapi.Request P)
    (host serviceAccount credentials audience baseURL : string) (req : http.Request) :
  restapi.BuildHTTPReq r host serviceAccount credentials audience baseURL = Success req ->
  http.URL req = http.Parse (host +:+ baseURL)
  /\ (restapi.Method r <> "" -> http.Method req = restapi.Method r)
  /\ dom (http.Header req) = ({["Content-Type"; "Authorization"]} : gset string).
Proof.
  unfold restapi.BuildHTTPReq. intros Hbuild.
  apply result_bind_Success in Hbuild as (req0 & Hreq0 & Hbuild).
  apply result_bind_Success in Hbuild as (keyBytes & Hkey & Hbuild).
  apply result_bind_Success in Hbuild as (jwt & Hjwt & Hbuild).
  injection Hbuild as <-. cbn.
  assert (Hnew : exists body,
             http.NewRequest restapi.refuse (restapi.Method r) (host +:+ baseURL) body
             = Success req0).
  { destruct (decide _); [|eauto].
    apply result_bind_Success in Hreq0 as (bodyJSON & _ & Hreq0). eauto. }
  destruct Hnew as (body & Hnew). unfold http.NewRequest in Hnew.
  destruct (restapi.refuse _ _); [discriminate|]. injection Hnew as <-. cbn.
  split; [reflexivity|]. split.
  - intros Hmethod. rewrite decide_False by exact Hmethod. reflexivity.
  - rewrite !dom_insert_L, dom_empty_L. set_solver.
Qed.

End BuildHTTPReq_more.

(** A GET with parameters and a GET with others; a POST with inline
    credentials and two key file paths; a PUT to a host and a path. *)
Lemma BuildHTTPReq_fetch_ignores_params_witness :
  restapi.BuildHTTPReq (issuer := Fixture.builder) (restapi.mkRequest "GET" "{}")
    "https://host/v2/" "" "inline-key" "audience" "us-east4/Volumes"
  = restapi.BuildHTTPReq (issuer := Fixture.builder) (restapi.mkRequest "GET" "[1,2]")
      "https://host/v2/" "" "inline-key" "audience" "us-east4/Volumes".
Proof.
  apply (BuildHTTPReq_fetch_ignores_params (issuer := Fixture.builder)). left. reflexivity.
Defined.

Lemma BuildHTTPReq_inline_credentials_win_witness :
  restapi.BuildHTTPReq (issuer := Fixture.builder) (restapi.mkRequest "POST" "{}")
    "https://host/v2/" "/etc/key.json" "inline-key" "audience" "us-east4/Volumes"
  = restapi.BuildHTTPReq (issuer := Fixture.builder) (restapi.mkRequest "POST" "{}")
      "https://host/v2/" "" "inline-key" "audience" "us-east4/Volumes".
Proof.
  apply (BuildHTTPReq_inline_credentials_win (issuer := Fixture.builder)). discriminate.
Defined.

Lemma BuildHTTPReq_unreadable_key_file_witness :
  restapi.BuildHTTPReq (issuer := Fixture.builder) (restapi.mkRequest "POST" "{}")
    "https://host/v2/" "/etc/key.json" "" "audience" "us-east4/Volumes"
  = Failure (fmt_Errorf "Unable to read service account key file  %v"
               [OpErr (errorString "no such file")]).
Proof.
  apply (BuildHTTPReq_unreadable_key_file (issuer := Fixture.builder)).
  - right. right. eexists. reflexivity.
  - reflexivity.
  - reflexivity.
Defined.

Lemma BuildHTTPReq_url_and_only_two_headers_witness :
  exists req,
    restapi.BuildHTTPReq (issuer := Fixture.builder) (restapi.mkRequest "PUT" "{}")
      "https://host/v2/" "" "inline-key" "audience" "us-east4/Volumes/vol-1" = Success req
    /\ http.URL req = http.Parse "https://host/v2/us-east4/Volumes/vol-1"
    /\ http.Method req = "PUT".
Proof.
  eexists. split; [reflexivity|].
  destruct (BuildHTTPReq_url_and_only_two_headers (issuer := Fixture.builder)
              (restapi.mkRequest "PUT" "{}")
              "https://host/v2/" "" "inline-key" "audience" "us-east4/Volumes/vol-1" _ eq_refl)
    as (Hurl & Hmethod & _).
  split; [exact Hurl | apply Hmethod; discriminate].
Defined.

Lemma BuildHTTPReq_encoding_failure_first_witness :
  restapi.BuildHTTPReq (issuer := Scenario.strict) (restapi.mkRequest "POST" None)
    "https://host/v2/" "" "" "audience" "us-east4/Volumes"
  = Failure (errorString "json: unsupported type").
Proof.
  apply (BuildHTTPReq_encoding_failure_first (issuer := Scenario.strict));
    [discriminate | discriminate | reflexivity].
Defined.

(** ** Operations of one call *)
Section One_call_properties.
Context {Params : Type} {backend : Backend Params}.
Variable leftover : bytes -> list volumeResult.t.

Implicit Types (log : list (event Params)) (request volume : volumeRequest.t).

(** X6.  The reads, the token mint and the update never wait and never call
    twice: whatever the control plane answers, each adds its one call to
    the log and nothing else, and the lookup by name or token adds its one
    call or, without a key, none. *)
Theorem reads_and_update_call_once (c : Client.t) (request : volumeRequest.t)
    (region : string) (log : list (event Params)) :
  (getVolumeByID c request log).2
  = log ++ [Call "GET"
              (volumeRequest.Region request +:+ "/Volumes/" +:+ volumeRequest.VolumeID request)
              None]
  /\ (getVolumeByRegion leftover c region log).2
     = log ++ [Call "GET" (region +:+ "/Volumes") None]
  /\ (createVolumeCreationToken c request log).2 = log ++ [mintCall request]
  /\ (updateVolume c request log).2
     = log ++ [Call "PUT"
                 (volumeRequest.Region request +:+ "/Volumes/"
                  +:+ volumeRequest.VolumeID request)
                 (Some (structs_Map request))]
  /\ (getVolumeByNameOrCreationToken c request log).2
     = if decide (volumeRequest.Name request = "" /\ volumeRequest.CreationToken request = "")
       then log
       else log ++ [Call "GET" (volumeRequest.Region request +:+ "/Volumes") None].
Proof.
  split; [|split; [|split; [|split]]].
  - unfold getVolumeByID, bind, CallAPIMethod, ret. cbn zeta.
    destruct (answer _ _ _ _) as [[statusCode response] [err|]]; [reflexivity|].
    destruct (apiResponseChecker _ _ _); [reflexivity|].
    destruct (json_Unmarshal (A := volumeResult.t) response); reflexivity.
  - unfold getVolumeByRegion, bind, CallAPIMethod, ret. cbn zeta.
    destruct (answer _ _ _ _) as [[statusCode response] [err|]]; [reflexivity|].
    destruct (apiResponseChecker _ _ _); [reflexivity|].
    destruct (json_Unmarshal (A := list volumeResult.t) response); reflexivity.
  - unfold createVolumeCreationToken, bind, CallAPIMethod, ret. cbn zeta.
    destruct (answer _ _ _ _) as [[statusCode response] [err|]]; [reflexivity|].
    destruct (apiResponseChecker _ _ _); [reflexivity|].
    destruct (json_Unmarshal (A := volumeResult.t) response); reflexivity.
  - unfold updateVolume, bind, CallAPIMethod, ret. cbn zeta.
    destruct (answer _ _ _ _) as [[statusCode response] [err|]]; [reflexivity|].
    destruct (apiResponseChecker _ _ _); [reflexivity|].
    destruct (json_Unmarshal (A := apiResponseCodeMessage.t) response); [|reflexivity].
    destruct (decide _); reflexivity.
  - unfold getVolumeByNameOrCreationToken, bind, CallAPIMethod, ret.
    destruct (decide _); [reflexivity|]. cbn zeta.
    destruct (answer _ _ _ _) as [[statusCode response] [err|]]; [reflexivity|].
    destruct (apiResponseChecker _ _ _); [reflexivity|].
    destruct (json_Unmarshal (A := list volumeResult.t) response); reflexivity.
Qed.

(** A failed read by region that never got to decode returns no volume. *)
Lemma getVolumeByRegion_transport_or_status c region log :
  let a := answer log "GET" (region +:+ "/Volumes") None in
  (a.2 <> None \/ apiResponseChecker a.1.1 a.1.2 "getVolumeByRegion" <> None) ->
  (getVolumeByRegion leftover c region log).1.1 = []
  /\ (getVolumeByRegion leftover c region log).1.2 <> None.
Proof.
  intros a. subst a. unfold getVolumeByRegion, bind, CallAPIMethod, ret. cbn zeta.
  destruct (answer _ _ _ _) as [[statusCode response] [err|]]; cbn.
  - intros _. split; [reflexivity | discriminate].
  - destruct (apiResponseChecker _ _ _); cbn.
    + intros _. split; [reflexivity | discriminate].
    + intros [Hne|Hne]; contradiction.
Qed.

End One_call_properties.

(** ** Results next to errors *)
Section Failure_properties.
Context {Params : Type} {backend : Backend Params}.

Implicit Types (log : list (event Params)) (request volume : volumeRequest.t).

Lemma createRetry_failure_is_empty min max retries baseURL params responseError response log
    (result : createVolumeResult.t) (failure : option error) log' :
  createRetry min max retries baseURL params responseError response log
  = (Returned (result, failure), log') ->
  failure <> None -> result = createVolumeResult.zero.
Proof.
  revert responseError response log.
  induction retries as [|retries IH]; intros responseError response log; [discriminate|].
  rewrite createRetry_turn. cbn zeta.
  destruct (answer _ _ _ _) as [[statusCode response1] [err|]]; [congruence|].
  destruct (json_Unmarshal (A := apiErrorResponse.t) response1); [|congruence].
  destruct (decide _).
  { destruct (json_Unmarshal (A := createVolumeResult.t) response1); congruence. }
  destruct (decide _); [congruence|]. apply IH.
Qed.

Lemma pickVolume_failure_is_empty volume (l : list volumeResult.t) :
  (pickVolume volume l).2 <> None -> (pickVolume volume l).1 = volumeResult.zero.
Proof.
  unfold pickVolume.
  destruct (decide (volumeRequest.CreationToken volume <> "")) as [Htoken|Hnone].
  - rewrite scanVolumes_token by exact Htoken.
    destruct (head _); [|reflexivity].
    repeat (destruct (decide _)); cbn; congruence.
  - destruct (scanVolumes volume l 0 volumeResult.zero) as [r|[count resultVolume]] eqn:Hscan.
    + exfalso. revert Hscan. generalize 0 volumeResult.zero.
      induction l as [|eachVolume rest IH]; intros count resultVolume; [discriminate|].
      cbn [scanVolumes]. rewrite decide_False by (intros [? _]; contradiction).
      destruct (decide _); apply IH.
    + destruct (1 <? count); [reflexivity|]. destruct (count =? 0); cbn; congruence.
Qed.

(** Runs the loop the goal mentions and settles both ways out of it. *)
Local Ltac run_loop Hdecoded :=
  match goal with
  | |- context [createRetry ?lo ?hi ?n ?u ?p ?re ?resp ?l] =>
      let Hrun := fresh "Hrun" in
      destruct (createRetry lo hi n u p re resp l)
        as [[[? ?]|? ?] ?] eqn:Hrun;
      [cbn; eapply createRetry_failure_is_empty; exact Hrun
      | destruct (_ || _); [reflexivity | apply Hdecoded]]
  end.

(** X7.  Whenever a read by id, a token mint, a lookup by name or token, or a
    create returns an error, the value next to it is the zero value of its
    type: no operation hands back a result together with an error. *)
Theorem failure_comes_with_zero_value (c : Client.t) (request : volumeRequest.t)
    (volType : string) (log : list (event Params)) :
  ((getVolumeByID c request log).1.2 <> None ->
   (getVolumeByID c request log).1.1 = volumeResult.zero)
  /\ ((createVolumeCreationToken c request log).1.2 <> None ->
      (createVolumeCreationToken c request log).1.1 = volumeResult.zero)
  /\ ((getVolumeByNameOrCreationToken c request log).1.2 <> None ->
      (getVolumeByNameOrCreationToken c request log).1.1 = volumeResult.zero)
  /\ ((createVolume c request volType log).1.2.2 <> None ->
      (createVolume c request volType log).1.2.1 = createVolumeResult.zero).
Proof.
  split; [|split; [|split]].
  - unfold getVolumeByID, bind, CallAPIMethod, ret. cbn zeta.
    destruct (answer _ _ _ _) as [[statusCode response] [err|]]; [reflexivity|].
    destruct (apiResponseChecker _ _ _); [reflexivity|].
    destruct (json_Unmarshal (A := volumeResult.t) response); cbn; congruence.
  - unfold createVolumeCreationToken, bind, CallAPIMethod, ret. cbn zeta.
    destruct (answer _ _ _ _) as [[statusCode response] [err|]]; [reflexivity|].
    destruct (apiResponseChecker _ _ _); [reflexivity|].
    destruct (json_Unmarshal (A := volumeResult.t) response); cbn; congruence.
  - unfold getVolumeByNameOrCreationToken, bind, CallAPIMethod, ret.
    destruct (decide _); [reflexivity|]. cbn zeta.
    destruct (answer _ _ _ _) as [[statusCode response] [err|]]; [reflexivity|].
    destruct (apiResponseChecker _ _ _); [reflexivity|].
    destruct (json_Unmarshal (A := list volumeResult.t) response) as [l|]; [|reflexivity].
    cbn. apply pickVolume_failure_is_empty.
  - assert (Hsubmit : forall request1 log1,
               (submitVolume c request1 volType log1).1.2.2 <> None ->
               (submitVolume c request1 volType log1).1.2.1 = createVolumeResult.zero).
    { intros request1 log1. unfold submitVolume, bind, CallAPIMethod, ret. cbn zeta.
      destruct (answer _ _ _ _) as [[statusCode response] [err|]]; [reflexivity|].
      assert (Hdecoded : forall body,
                 (decodeCreated body).2 <> None ->
                 (decodeCreated body).1 = createVolumeResult.zero).
      { intros body. unfold decodeCreated.
        destruct (json_Unmarshal (A := createVolumeResult.t) body); cbn; congruence. }
      destruct (apiResponseChecker _ _ _) as [responseError|]; [|apply Hdecoded].
      destruct (json_Unmarshal (A := apiErrorResponse.t) response) as [content|];
        [|reflexivity].
      destruct (decide (apiErrorResponse.Code content = 500)).
      - destruct (decide _); [run_loop Hdecoded|].
        destruct (decide _); [run_loop Hdecoded|]. reflexivity.
      - destruct (_ || _); [reflexivity | apply Hdecoded]. }
    unfold createVolume, bind.
    destruct (decide _); [|apply Hsubmit].
    destruct (createVolumeCreationToken c request log) as [[creationToken [err|]] log1];
      [reflexivity | apply Hsubmit].
Qed.

End Failure_properties.

(** ** More on the lookup by name or creation token *)
Section Lookup_more.
Context {Params : Type} {backend : Backend Params}.

Implicit Types (log : list (event Params)) (volume : volumeRequest.t)
  (l : list volumeResult.t) (v : volumeResult.t).

(** X8.  A lookup that succeeds returns one of the listed volumes, and that
    volume carries the token that was asked for, if any, and has the name
    that was asked for, if any. *)
Theorem lookup_returns_a_listed_match (c : Client.t) (volume : volumeRequest.t)
    (log : list (event Params)) (statusCode : Z) (response : bytes)
    (l : list volumeResult.t) (v : volumeResult.t) :
  answer log "GET" (volumeRequest.Region volume +:+ "/Volumes") None
    = (statusCode, response, None) ->
  apiResponseChecker statusCode response "getVolumeByNameOrCreationToken" = None ->
  json_Unmarshal (A := list volumeResult.t) response = Success l ->
  (getVolumeByNameOrCreationToken c volume log).1 = (v, None) ->
  v ∈ l
  /\ (volumeRequest.CreationToken volume <> "" ->
      volumeResult.CreationToken v = volumeRequest.CreationToken volume)
  /\ (volumeRequest.Name volume <> "" ->
      volumeResult.Name v = volumeRequest.Name volume).
Proof.
  intros Hanswer Hstatus Hdecode.
  destruct (decide (volumeRequest.Name volume = "" /\ volumeRequest.CreationToken volume = ""))
    as [Hnokey|Hkey].
  { unfold getVolumeByNameOrCreationToken. rewrite decide_True by exact Hnokey.
    unfold ret. cbn. intros [=]. }
  rewrite (getVolumeByNameOrCreationToken_listed c volume log statusCode response l)
    by assumption.
  cbn [fst]. unfold pickVolume.
  destruct (decide (volumeRequest.CreationToken volume <> "")) as [Htoken|Hnotoken].
  - rewrite scanVolumes_token by exact Htoken.
    destruct (head (carrying (volumeRequest.CreationToken volume) l)) as [w|] eqn:Hhead;
      [|discriminate].
    apply head_Some_elem_of in Hhead. unfold carrying in Hhead.
    apply list_elem_of_filter in Hhead as [Hcarry Hin].
    repeat (destruct (decide _)); intros [= <-]; repeat split; auto; try contradiction.
  - assert (Htoken : volumeRequest.CreationToken volume = "")
      by (destruct (decide (volumeRequest.CreationToken volume = "")); tauto).
    assert (Hname : volumeRequest.Name volume <> "") by tauto.
    rewrite scanVolumes_name by assumption.
    destruct (named (volumeRequest.Name volume) l) as [|w [|w' ws]] eqn:Hnamed.
    + cbn. intros [=].
    + cbn. intros [= <-].
      assert (Hin : w ∈ named (volumeRequest.Name volume) l)
        by (rewrite Hnamed; apply list_elem_of_here).
      unfold named in Hin. apply list_elem_of_filter in Hin as [Hsame Hin].
      repeat split; auto. intros; contradiction.
    + replace (1 <? 0 + Z.of_nat (length (w :: w' :: ws))) with true
        by (symmetry; apply Z.ltb_lt; cbn [length]; lia).
      intros [=].
Qed.

(** X9.  Two more cases of the lookup: by name only, when no listed volume has
    the name, it fails for want of a volume; with a token and a name, when
    the first volume carrying the token has that name, it is returned. *)
Theorem lookup_no_match_and_full_match (c : Client.t) (volume : volumeRequest.t)
    (log : list (event Params)) (statusCode : Z) (response : bytes)
    (l : list volumeResult.t) :
  let name := volumeRequest.Name volume in
  let creationToken := volumeRequest.CreationToken volume in
  answer log "GET" (volumeRequest.Region volume +:+ "/Volumes") None
    = (statusCode, response, None) ->
  apiResponseChecker statusCode response "getVolumeByNameOrCreationToken" = None ->
  json_Unmarshal (A := list volumeResult.t) response = Success l ->
  let found := (getVolumeByNameOrCreationToken c volume log).1 in
  (name <> "" -> creationToken = "" -> named name l = [] ->
     found = (volumeResult.zero,
              Some (fmt_Errorf "No volume found for : %v" [OpStr name])))
  /\ (forall v, creationToken <> "" -> name <> "" ->
        head (carrying creationToken l) = Some v -> volumeResult.Name v = name ->
        found = (v, None)).
Proof.
  intros name creationToken Hanswer Hstatus Hdecode found.
  assert (Hrun : name <> "" -> found = pickVolume volume l).
  { intros Hname. unfold found.
    rewrite (getVolumeByNameOrCreationToken_listed c volume log statusCode response l);
      auto.
    intros [? ?]. contradiction. }
  split.
  - intros Hname Htoken Hnone. rewrite Hrun by exact Hname. unfold pickVolume.
    rewrite scanVolumes_name by assumption. rewrite decide_False by tauto.
    fold name. rewrite Hnone. reflexivity.
  - intros v Htoken Hname Hfirst Hsame. rewrite Hrun by exact Hname. unfold pickVolume.
    rewrite scanVolumes_token by assumption. fold creationToken. rewrite Hfirst.
    rewrite decide_False by assumption. rewrite decide_True by assumption. reflexivity.
Qed.

End Lookup_more.

(** On the listing of two volumes named vol-a and one named vol-b: the
    lookup of vol-b returns a listed volume of that name; the lookup of
    vol-c finds nothing; the lookup of vol-a with the token of the second
    vol-a returns it. *)
Lemma lookup_returns_a_listed_match_witness :
  let backend := Fixture.scripted [] (200, Fixture.listing) in
  Fixture.volB ∈ [Fixture.volA1; Fixture.volA2; Fixture.volB]
  /\ volumeResult.Name Fixture.volB = "vol-b".
Proof.
  intros backend.
  destruct (lookup_returns_a_listed_match (backend := backend) Fixture.client
              (Fixture.wanted "vol-b" "") [] 200 Fixture.listing
              [Fixture.volA1; Fixture.volA2; Fixture.volB] Fixture.volB
              eq_refl eq_refl eq_refl eq_refl) as (Hin & _ & Hname).
  split; [exact Hin | apply Hname; discriminate].
Defined.

Lemma lookup_no_match_and_full_match_witness :
  let lookup name creationToken :=
    (getVolumeByNameOrCreationToken
       (backend := Fixture.scripted [] (200, Fixture.listing))
       Fixture.client (Fixture.wanted name creationToken) []).1 in
  lookup "vol-c" "" = (volumeResult.zero,
                       Some (fmt_Errorf "No volume found for : %v" [OpStr "vol-c"]))
  /\ lookup "vol-a" "token-2" = (Fixture.volA2, None).
Proof.
  pose (rule name creationToken :=
          lookup_no_match_and_full_match
            (backend := Fixture.scripted [] (200, Fixture.listing))
            Fixture.client (Fixture.wanted name creationToken) [] 200 Fixture.listing
            [Fixture.volA1; Fixture.volA2; Fixture.volB] eq_refl eq_refl eq_refl).
  intros lookup. split.
  - destruct (rule "vol-c" "") as (Hnone & _).
    apply Hnone; [discriminate | reflexivity | reflexivity].
  - destruct (rule "vol-a" "token-2") as (_ & Hfull).
    apply (Hfull Fixture.volA2); [discriminate | discriminate | reflexivity | reflexivity].
Defined.

(** ** More on the retry loops *)
Section Retry_more.
Context {Params : Type} {backend : Backend Params}.

Implicit Types (log h : list (event Params)) (request : volumeRequest.t).

Lemma attempts_app (method : string) log h :
  attempts method (log ++ h) = (attempts method log + attempts method h)%nat.
Proof.
  induction log as [|[m u p|s] log IH]; cbn; [reflexivity| |exact IH].
  destruct (decide (m = method)); cbn; rewrite IH; reflexivity.
Qed.

Lemma sleeps_app log h : sleeps (log ++ h) = sleeps log ++ sleeps h.
Proof.
  induction log as [|[m u p|s] log IH]; cbn; [reflexivity|exact IH|].
  rewrite IH. reflexivity.
Qed.

Lemma sleeps_turns (call : event Params) (waits : list Z) :
  (forall s, call <> Sleep s) -> sleeps (turns call waits) = waits.
Proof.
  intros Hcall. induction waits as [|s waits IH]; [reflexivity|].
  cbn. fold (turns call waits). destruct call as [m u p|s']; [|destruct (Hcall s'); reflexivity].
  cbn. rewrite IH. reflexivity.
Qed.

(** Whatever the answers, a delete loop only adds turns to the log, at most
    as many as its retries. *)
Lemma deleteRetry_log retries baseURL responseError response log :
  exists waits,
    (deleteRetry retries baseURL responseError response log).2
    = log ++ turns (Call "DELETE" baseURL None) waits
    /\ (length waits <= retries)%nat.
Proof.
  revert responseError response log.
  induction retries as [|retries IH]; intros responseError response log.
  - exists []. cbn. rewrite app_nil_r. auto.
  - rewrite deleteRetry_turn. cbn zeta.
    assert (Hone : exists waits,
               (log ++ [Sleep (draw log 30 50)]) ++ [Call "DELETE" baseURL None]
               = log ++ turns (Call "DELETE" baseURL None) waits
               /\ (length waits <= S retries)%nat).
    { exists [draw log 30 50]. cbn. rewrite <- app_assoc. split; [reflexivity | lia]. }
    destruct (answer _ _ _ _) as [[statusCode response'] [err|]]; [exact Hone|].
    destruct (json_Unmarshal (A := apiErrorResponse.t) response'); [|exact Hone].
    destruct (decide _).
    { destruct (json_Unmarshal (A := createVolumeResult.t) response'); exact Hone. }
    destruct (decide _); [exact Hone|].
    destruct (IH (apiResponseChecker statusCode response' "deleteVolume") response'
                ((log ++ [Sleep (draw log 30 50)]) ++ [Call "DELETE" baseURL None]))
      as (waits & Hlog & Hlen).
    exists (draw log 30 50 :: waits). rewrite Hlog. cbn.
    rewrite <- !app_assoc. split; [reflexivity | lia].
Qed.




(** From the first submission on, a create adds the submission and at
    most ten turns of it. *)
Lemma submitVolume_log_bounded c request volType log :
  exists waits,
    (submitVolume c request volType log).2
    = log ++ submission c request volType :: turns (submission c request volType) waits
    /\ (length waits <= 10)%nat.
Proof.
  unfold submitVolume, bind, CallAPIMethod, ret. cbn zeta.
  set (baseURL := volumeRequest.Region (resolveNetwork c request) +:+ "/" +:+ volType).
  set (params := structs_Map (resolveNetwork c request)).
  change (submission c request volType) with (Call "POST" baseURL (Some params)).
  assert (Hnone : log ++ [Call "POST" baseURL (Some params)]
                  = log ++ Call "POST" baseURL (Some params)
                           :: turns (Call "POST" baseURL (Some params)) []
                  /\ (length (@nil Z) <= 10)%nat) by (split; [reflexivity | cbn; lia]).
  destruct (answer log "POST" baseURL (Some params)) as [[statusCode response] [err|]];
    [exists []; auto|].
  destruct (apiResponseChecker statusCode response "createVolume") as [responseError|];
    [|exists []; auto].
  destruct (json_Unmarshal (A := apiErrorResponse.t) response) as [content|];
    [|exists []; auto].
  assert (Hloop : forall min max retries exit log',
             (retries <= 10)%nat ->
             createRetry min max retries baseURL params (Some responseError) response
               (log ++ [Call "POST" baseURL (Some params)]) = (exit, log') ->
             exists waits,
               log' = log ++ Call "POST" baseURL (Some params)
                          :: turns (Call "POST" baseURL (Some params)) waits
               /\ (length waits <= 10)%nat).
  { intros min max retries exit log' Hretries Hrun.
    destruct (createRetry_log min max retries baseURL params (Some responseError) response
                (log ++ [Call "POST" baseURL (Some params)])) as (waits & Hlog & Hlen & _).
    rewrite Hrun in Hlog. cbn in Hlog. exists waits.
    rewrite Hlog, <- app_assoc. split; [reflexivity | lia]. }
  destruct (decide (apiErrorResponse.Code content = 500)).
  - destruct (decide (apiErrorResponse.Message content = spawnJobCreationErrorMessage)).
    { destruct (createRetry 30 50 10 _ _ _ _ _) as [exit log'] eqn:Hrun.
      destruct (Hloop 30 50 10%nat exit log' ltac:(lia) Hrun) as (waits & -> & Hlen).
      exists waits. destruct exit; [auto|]. destruct (_ || _); auto. }
    destruct (decide (apiErrorResponse.Message content = contextDeadlineExceededErrorMessage)).
    { destruct (createRetry 5 10 5 _ _ _ _ _) as [exit log'] eqn:Hrun.
      destruct (Hloop 5 10 5%nat exit log' ltac:(lia) Hrun) as (waits & -> & Hlen).
      exists waits. destruct exit; [auto|]. destruct (_ || _); auto. }
    exists []. auto.
  - exists []. destruct (_ || _); auto.
Qed.

(** X12.  The retries are bounded, whatever the control plane answers: a create
    submits at most 11 times and a delete calls at most 11 times, each with
    at most 10 sleeps. *)
Theorem create_and_delete_are_bounded (c : Client.t) (request : volumeRequest.t)
    (volType : string) (log : list (event Params)) :
  (attempts "POST" (createVolume c request volType log).2 <= attempts "POST" log + 11)%nat
  /\ (length (sleeps (createVolume c request volType log).2) <= length (sleeps log) + 10)%nat
  /\ (attempts "DELETE" (deleteVolume c request log).2 <= attempts "DELETE" log + 11)%nat
  /\ (length (sleeps (deleteVolume c request log).2) <= length (sleeps log) + 10)%nat.
Proof.
  assert (Hcreate : exists (mint : list (event Params)) (waits : list Z),
             (attempts "POST" mint = 0%nat /\ sleeps mint = [])
             /\ (length waits <= 10)%nat
             /\ ((createVolume c request volType log).2 = log ++ mint
                 \/ exists post,
                      (forall s, post <> Sleep s)
                      /\ attempts "POST" [post] = 1%nat
                      /\ (createVolume c request volType log).2
                         = log ++ mint ++ post :: turns post waits)).
  { destruct (atFirstSubmission c request log) as [[request1 log1]|] eqn:Hfirst.
    - rewrite (createVolume_from_first_submission _ _ volType _ _ _ Hfirst).
      destruct (submitVolume_log_bounded c request1 volType log1) as (waits & Hlog & Hlen).
      assert (Hmint : exists mint,
                 log1 = log ++ mint /\ attempts "POST" mint = 0%nat /\ sleeps mint = []).
      { unfold atFirstSubmission in Hfirst. destruct (decide _).
        - assert (Hminted : (createVolumeCreationToken c request log).2
                              = log ++ [mintCall request]).
          { unfold createVolumeCreationToken, bind, CallAPIMethod, ret. cbn zeta.
            destruct (answer _ _ _ _) as [[statusCode response] [err|]]; [reflexivity|].
            destruct (apiResponseChecker _ _ _); [reflexivity|].
            destruct (json_Unmarshal (A := volumeResult.t) response); reflexivity. }
          destruct (createVolumeCreationToken c request log)
            as [[creationToken [err|]] log']; [discriminate|].
          injection Hfirst as _ <-. cbn in Hminted. exists [mintCall request].
          split; [exact Hminted|]. cbn. rewrite decide_False by discriminate. auto.
        - injection Hfirst as _ <-. exists []. rewrite app_nil_r. auto. }
      destruct Hmint as (mint & -> & Hposts & Hsleeps).
      exists mint, waits. split; [auto|]. split; [exact Hlen|]. right.
      exists (submission c request1 volType).
      split; [intros s; discriminate|].
      split; [cbn; rewrite decide_True by reflexivity; reflexivity|].
      rewrite Hlog, <- app_assoc. reflexivity.
    - destruct (createVolume_without_submission c request volType log Hfirst)
        as (_ & failed & ->).
      exists [mintCall request], []. cbn. rewrite decide_False by discriminate.
      split; [auto|]. split; [lia|]. left. reflexivity. }
  assert (Hdelete : exists waits,
             (length waits <= 10)%nat
             /\ (deleteVolume c request log).2
                = log ++ removal request :: turns (removal request) waits).
  { unfold deleteVolume, bind, CallAPIMethod, ret. cbn zeta.
    set (baseURL := volumeRequest.Region request +:+ "/Volumes/"
                    +:+ volumeRequest.VolumeID request).
    change (Call "DELETE" baseURL None) with (removal (Params := Params) request).
    assert (Hnone : (length (@nil Z) <= 10)%nat
                    /\ log ++ [removal request]
                       = log ++ removal request :: turns (removal request) [])
      by (split; [cbn; lia | reflexivity]).
    destruct (answer log "DELETE" baseURL None) as [[statusCode response] [err|]];
      [exists []; exact Hnone|].
    destruct (apiResponseChecker statusCode response "deleteVolume") as [responseError|];
      [|exists []; exact Hnone].
    destruct (json_Unmarshal (A := apiErrorResponse.t) response) as [content|];
      [|exists []; exact Hnone].
    destruct (decide (apiErrorResponse.Code content = 500)).
    - destruct (decide _).
      + destruct (deleteRetry_log 10 baseURL (Some responseError) response
                    (log ++ [removal request])) as (waits & Hlog & Hlen).
        destruct (deleteRetry 10 baseURL (Some responseError) response
                    (log ++ [removal request])) as [exit log'].
        cbn in Hlog. subst log'. exists waits. rewrite <- app_assoc.
        split; [exact Hlen|]. destruct exit; [reflexivity|]. destruct (_ || _); reflexivity.
      + exists []. exact Hnone.
    - exists []. destruct (_ || _); exact Hnone. }
  split; [|split].
  - destruct Hcreate as (mint & waits & (Hposts & _) & Hlen & [->|(post & _ & Hone & ->)]).
    + rewrite attempts_app, Hposts. lia.
    + change (post :: turns post waits) with ([post] ++ turns post waits).
      rewrite !attempts_app, Hposts, Hone.
      destruct post as [m u p|s]; [|discriminate].
      cbn in Hone. destruct (decide (m = "POST")) as [->|]; [|discriminate].
      rewrite attempts_turns. lia.
  - destruct Hcreate as (mint & waits & (_ & Hsleeps) & Hlen & [->|(post & Hcall & _ & ->)]).
    + rewrite sleeps_app, Hsleeps, app_nil_r. lia.
    + change (post :: turns post waits) with ([post] ++ turns post waits).
      rewrite !sleeps_app, Hsleeps, sleeps_turns by exact Hcall.
      assert (Hpost : sleeps [post] = []).
      { destruct post as [m u p|s]; [reflexivity|]. destruct (Hcall s). reflexivity. }
      rewrite Hpost, !length_app. cbn. lia.
  - destruct Hdelete as (waits' & Hlen' & ->). unfold removal.
    match goal with
    | |- context [?call :: turns ?call waits'] =>
        change (call :: turns call waits') with ([call] ++ turns call waits')
    end.
    rewrite !attempts_app, attempts_turns, !sleeps_app.
    rewrite sleeps_turns by (intros s; discriminate).
    cbn. rewrite decide_True by reflexivity. rewrite length_app. lia.
Qed.

(** X13.  A transport error is never retried: on the first attempt of a create
    or of a delete, and on any turn of their loops, the operation ends at
    that call and returns the error of the transport as it is. *)
Theorem transport_error_is_never_retried :
  (forall (c : Client.t) (request : volumeRequest.t) (volType : string)
          (log : list (event Params)) (request1 : volumeRequest.t)
          (log1 : list (event Params)) (statusCode : Z) (response : bytes) (err : error),
      atFirstSubmission c request log = Some (request1, log1) ->
      answer log1 "POST" (volumeRequest.Region request1 +:+ "/" +:+ volType)
             (Some (structs_Map (resolveNetwork c request1)))
        = (statusCode, response, Some err) ->
      createVolume c request volType log
      = ((resolveNetwork c request1, (createVolumeResult.zero, Some err)),
         log1 ++ [submission c request1 volType]))
  /\ (forall (c : Client.t) (request : volumeRequest.t) (log : list (event Params))
             (statusCode : Z) (response : bytes) (err : error),
      answer log "DELETE"
             (volumeRequest.Region request +:+ "/Volumes/" +:+ volumeRequest.VolumeID request)
             None
        = (statusCode, response, Some err) ->
      deleteVolume c request log = (Some err, log ++ [removal request]))
  /\ (forall (min max : Z) (retries : nat) (baseURL : string) (params : Params)
             (responseError : option error) (response : bytes)
             (log : list (event Params)) (statusCode : Z) (response1 : bytes) (err : error),
      let waited := log ++ [Sleep (draw log min max)] in
      answer waited "POST" baseURL (Some params) = (statusCode, response1, Some err) ->
      createRetry min max (S retries) baseURL params responseError response log
      = (Returned (createVolumeResult.zero, Some err),
         waited ++ [Call "POST" baseURL (Some params)]))
  /\ (forall (retries : nat) (baseURL : string)
             (responseError : option error) (response : bytes)
             (log : list (event Params)) (statusCode : Z) (response1 : bytes) (err : error),
      let waited := log ++ [Sleep (draw log 30 50)] in
      answer waited "DELETE" baseURL None = (statusCode, response1, Some err) ->
      deleteRetry (S retries) baseURL responseError response log
      = (Returned (Some err), waited ++ [Call "DELETE" baseURL None])).
Proof.
  split; [|split; [|split]].
  - intros c request volType log request1 log1 statusCode response err Hfirst Hanswer.
    rewrite (createVolume_from_first_submission _ _ _ _ _ _ Hfirst).
    unfold submitVolume, bind, CallAPIMethod, ret. cbn zeta.
    change (volumeRequest.Region (resolveNetwork c request1))
      with (volumeRequest.Region request1).
    rewrite Hanswer. reflexivity.
  - intros c request log statusCode response err Hanswer.
    unfold deleteVolume, bind, CallAPIMethod, ret. cbn zeta. rewrite Hanswer. reflexivity.
  - intros min max retries baseURL params responseError response log statusCode response1
           err waited Hanswer.
    rewrite createRetry_turn. cbn zeta. fold waited. rewrite Hanswer. reflexivity.
  - intros retries baseURL responseError response log statusCode response1 err waited
           Hanswer.
    rewrite deleteRetry_turn. cbn zeta. fold waited. rewrite Hanswer. reflexivity.
Qed.

(** X14.  An edge of the exhaustion: when the first answer is the job exhaustion
    of the create path and every later answer passes the response checker
    while its envelope still has code 500, the create submits 11 times and
    then returns the zero result with no error at all. *)
Theorem createVolume_exhaustion_without_error (c : Client.t) (request : volumeRequest.t)
    (volType : string) (log : list (event Params))
    (request1 : volumeRequest.t) (log1 : list (event Params)) :
  let baseURL := volumeRequest.Region request1 +:+ "/" +:+ volType in
  let params := Some (structs_Map (resolveNetwork c request1)) in
  let post := submission c request1 volType in
  atFirstSubmission c request log = Some (request1, log1) ->
  (exists responseError,
      refused "createVolume" (answer log1 "POST" baseURL params) responseError
        (apiErrorResponse.mk 500 spawnJobCreationErrorMessage)) ->
  (forall h, exists content,
      let a := answer (log1 ++ post :: h) "POST" baseURL params in
      enveloped a content
      /\ apiErrorResponse.Code content = 500
      /\ apiResponseChecker a.1.1 a.1.2 "createVolume" = None) ->
  exists waits : list Z,
    createVolume c request volType log
    = ((resolveNetwork c request1, (createVolumeResult.zero, None)),
       log1 ++ post :: turns post waits)
    /\ length waits = 10%nat.
Proof.
  intros baseURL params post Hfirst (responseError & Hrefused) Hbusy.
  rewrite (createVolume_from_first_submission _ _ _ _ _ _ Hfirst).
  rewrite (submitVolume_refused _ _ _ _ _ _ Hrefused eq_refl).
  cbn [apiErrorResponse.Message]. rewrite decide_True by reflexivity.
  fold baseURL. fold post.
  destruct (createRetry_exhausted 30 50 10 baseURL (structs_Map (resolveNetwork c request1))
              (Some responseError) (answer log1 "POST" baseURL params).1.2 (log1 ++ [post]))
    as (waits & responseError' & response' & Hrun & Hlen & _ & Hlast).
  { intros h. rewrite <- app_assoc. cbn.
    destruct (Hbusy h) as (content & Henveloped & Hcode & _). eauto. }
  fold post in Hrun, Hlast. fold params. rewrite Hrun.
  destruct Hlast as (h & statusCode' & Hturns & Hanswer & Hverdict); [discriminate|].
  rewrite <- app_assoc in Hanswer. cbn in Hanswer.
  destruct (Hbusy h) as (content & _ & _ & Hchecked).
  fold params in Hanswer. cbn zeta in Hchecked. rewrite Hanswer in Hchecked.
  cbn in Hchecked.
  exists waits. rewrite Hverdict, Hchecked, <- app_assoc. cbn. auto.
Qed.

(** X15.  A delete whose first response passes the response checker makes that
    one call and succeeds exactly when the body decodes to the error
    envelope, whatever code and message the envelope holds; when the body
    does not decode, the delete fails with the error made of the raw
    body. *)
Theorem deleteVolume_accepted (c : Client.t) (request : volumeRequest.t)
    (log : list (event Params)) (statusCode : Z) (response : bytes) :
  answer log "DELETE"
         (volumeRequest.Region request +:+ "/Volumes/" +:+ volumeRequest.VolumeID request) None
    = (statusCode, response, None) ->
  apiResponseChecker statusCode response "deleteVolume" = None ->
  (deleteVolume c request log).2 = log ++ [removal request]
  /\ ((deleteVolume c request log).1 = None
      <-> exists content, json_Unmarshal (A := apiErrorResponse.t) response = Success content)
  /\ ((deleteVolume c request log).1 <> None ->
      (deleteVolume c request log).1 = Some (fmt_Errorf response [])).
Proof.
  intros Hanswer Hstatus. unfold deleteVolume, bind, CallAPIMethod, ret. cbn zeta.
  rewrite Hanswer, Hstatus. unfold decodeDeleted. cbn.
  destruct (json_Unmarshal (A := apiErrorResponse.t) response) as [content|err]; cbn.
  - split; [reflexivity|]. split; [split; eauto|]. intros Hne; contradiction.
  - split; [reflexivity|]. split; [|reflexivity].
    split; [discriminate | intros (content & [=])].
Qed.

(** X16.  A create without a token whose mint call fails returns the error of
    the mint, submits nothing and leaves the request as it was. *)
Theorem createVolume_mint_failure (c : Client.t) (request : volumeRequest.t)
    (volType : string) (log : list (event Params)) (err : error) :
  volumeRequest.CreationToken request = "" ->
  (createVolumeCreationToken c request log).1.2 = Some err ->
  createVolume c request volType log
  = ((request, (createVolumeResult.zero, Some err)), log ++ [mintCall request])
  /\ attempts "POST" (createVolume c request volType log).2 = attempts "POST" log.
Proof.
  intros Hempty Hmint.
  assert (Hlog : (createVolumeCreationToken c request log).2 = log ++ [mintCall request]).
  { unfold createVolumeCreationToken, bind, CallAPIMethod, ret. cbn zeta.
    destruct (answer _ _ _ _) as [[statusCode response] [e|]]; [reflexivity|].
    destruct (apiResponseChecker _ _ _); [reflexivity|].
    destruct (json_Unmarshal (A := volumeResult.t) response); reflexivity. }
  unfold createVolume, bind. rewrite decide_True by exact Hempty.
  destruct (createVolumeCreationToken c request log) as [[creationToken failure] log'].
  cbn in Hmint, Hlog. subst failure log'. unfold ret.
  split; [reflexivity|]. cbn [snd]. rewrite attempts_app. cbn.
  rewrite decide_False by discriminate. lia.
Qed.

(** X17.  The project of the network path: after SetProjectID, a create with a
    token of the caller first submits the request whose network reference
    is the path in that project, unless the request names a shared VPC
    project, which then takes its place. *)
Theorem createVolume_submits_in_the_set_project (c : Client.t) (project : string)
    (request : volumeRequest.t) (volType : string) (log : list (event Params)) :
  volumeRequest.CreationToken request <> "" ->
  let projectID :=
    if decide (volumeRequest.SharedVpcProjectNumber request = "")
    then project else volumeRequest.SharedVpcProjectNumber request in
  let sent :=
    volumeRequest.set_Network
      ("projects/" +:+ projectID +:+ "/global/networks/" +:+ volumeRequest.Network request)
      request in
  exists rest,
    (createVolume (SetProjectID c project) request volType log).2
    = log ++ Call "POST" (volumeRequest.Region request +:+ "/" +:+ volType)
                  (Some (structs_Map sent)) :: rest.
Proof.
  intros Htoken projectID sent.
  unfold createVolume. rewrite decide_False by exact Htoken.
  destruct (submitVolume_log_bounded (SetProjectID c project) request volType log)
    as (waits & -> & _).
  eexists. unfold submission, resolveNetwork, GetProjectID, SetProjectID. cbn [Client.Project].
  subst sent projectID.
  destruct (decide (volumeRequest.SharedVpcProjectNumber request = "")) as [Hnone|Hshared].
  - rewrite decide_False by tauto. reflexivity.
  - rewrite decide_True by exact Hshared. reflexivity.
Qed.

End Retry_more.

(** ** The conversions to and from configuration maps *)
Section Conversion_properties.

Lemma fold_left_append {A B : Type} (f : A -> B) (l : list A) (acc : list B) :
  fold_left (fun acc x => acc ++ [f x]) l acc = acc ++ (f <$> l).
Proof.
  revert acc. induction l as [|x l IH]; intros acc; cbn.
  - rewrite app_nil_r. reflexivity.
  - rewrite IH, <- app_assoc. reflexivity.
Qed.

(** X18.  flattenMountPoints keeps the number and the order of the mount points:
    the i-th map of its result holds the export, the server and the
    protocol type of the i-th mount point, under the keys export, server
    and protocol_type and no other. *)
Theorem flattenMountPoints_keeps_order (v : list mountPoints.t) :
  exists mps : list (gmap string value),
    flattenMountPoints v = VMapSlice mps
    /\ length mps = length v
    /\ forall (i : nat) (mountpoint : mountPoints.t),
         v !! i = Some mountpoint ->
         exists mpmap : gmap string value,
           mps !! i = Some mpmap
           /\ mpmap !! "export" = Some (VString (mountPoints.Export mountpoint))
           /\ mpmap !! "server" = Some (VString (mountPoints.Server mountpoint))
           /\ mpmap !! "protocol_type" = Some (VString (mountPoints.ProtocolType mountpoint))
           /\ dom mpmap = ({["export"; "server"; "protocol_type"]} : gset string).
Proof.
  unfold flattenMountPoints. eexists. split; [reflexivity|].
  rewrite (fold_left_append
             (fun mountpoint : mountPoints.t =>
                (<["protocol_type" := VString (mountPoints.ProtocolType mountpoint)]>
                   (<["server" := VString (mountPoints.Server mountpoint)]>
                      (<["export" := VString (mountPoints.Export mountpoint)]> ∅))
                 : gmap string value))).
  cbn [app]. split; [apply length_fmap|].
  intros i mountpoint Hi. eexists. rewrite list_lookup_fmap, Hi.
  split; [reflexivity|]. cbn beta.
  split; [by simplify_map_eq|]. split; [by simplify_map_eq|]. split; [by simplify_map_eq|].
  rewrite !dom_insert_L, dom_empty_L. set_solver.
Qed.

(** X19.  flattenExportPolicy returns one block whose key rule holds the rules in
    their order, as many as the policy has: the i-th map holds the access
    and the allowed clients of the i-th rule, and for each of nfsv3 and
    nfsv4 a list of one map with its checked flag. *)
Theorem flattenExportPolicy_keeps_order (v : exportPolicy.t) :
  exists rules : list (gmap string value),
    flattenExportPolicy v = VMapSlice [ {[ "rule" := VMapSlice rules ]} ]
    /\ length rules = length (exportPolicy.Rules v)
    /\ forall (i : nat) (rule : exportPolicyRule.t),
         exportPolicy.Rules v !! i = Some rule ->
         exists m : gmap string value,
           rules !! i = Some m
           /\ m !! "access" = Some (VString (exportPolicyRule.Access rule))
           /\ m !! "allowed_clients" = Some (VString (exportPolicyRule.AllowedClients rule))
           /\ m !! "nfsv3"
              = Some (VMapSlice
                        [ {[ "checked" := VBool (nfs.Checked (exportPolicyRule.Nfsv3 rule)) ]} ])
           /\ m !! "nfsv4"
              = Some (VMapSlice
                        [ {[ "checked" := VBool (nfs.Checked (exportPolicyRule.Nfsv4 rule)) ]} ]).
Proof.
  unfold flattenExportPolicy. eexists. split; [reflexivity|].
  rewrite (fold_left_append ruleMap). cbn [app]. split; [apply length_fmap|].
  intros i rule Hi. eexists. rewrite list_lookup_fmap, Hi.
  split; [reflexivity|]. unfold ruleMap.
  split; [by simplify_map_eq|]. split; [by simplify_map_eq|].
  split; by simplify_map_eq.
Qed.

(** X20.  Round trip of the snapshot policy: the map that flattenSnapshotPolicy
    builds, once its lists of blocks are handed back as [[]interface{}],
    expands to the policy it was built from, without a panic.  (Handed to
    expandSnapshotPolicy as they are, the lists fail its type assertion.) *)
Theorem expandSnapshotPolicy_inverts_flatten (v : snapshotPolicy.t) :
  exists sp : gmap string value,
    flattenSnapshotPolicy v = VMapSlice [sp]
    /\ expandSnapshotPolicy (asBlocks <$> sp) = Some v
    /\ expandSnapshotPolicy sp = None.
Proof.
  exists (snapshotPolicyMap v). split; [reflexivity|].
  destruct v as [enabled [dh dm dk] [hm hk] [md mh mm mk] [wd wh wm wk]].
  split; vm_compute; reflexivity.
Qed.

(** X21.  expandSnapshotPolicy reads five keys and no other: setting any other
    key of the map changes nothing. *)
Theorem expandSnapshotPolicy_ignores_other_keys (data : gmap string value)
    (key : string) (x : value) :
  key <> "enabled" -> key <> "daily_schedule" -> key <> "hourly_schedule" ->
  key <> "monthly_schedule" -> key <> "weekly_schedule" ->
  expandSnapshotPolicy (<[key := x]> data) = expandSnapshotPolicy data.
Proof.
  intros Henabled Hdaily Hhourly Hmonthly Hweekly.
  unfold expandSnapshotPolicy, whenPresent, whenBlock.
  rewrite !lookup_insert_ne by assumption. reflexivity.
Qed.

(** X22.  Of the list under a schedule key, expandSnapshotPolicy reads the first
    block only: what follows it, whatever its type, changes nothing. *)
Theorem expandSnapshotPolicy_reads_first_block (data : gmap string value)
    (key : string) (first : value) (others : list value) :
  key = "daily_schedule" \/ key = "hourly_schedule"
  \/ key = "monthly_schedule" \/ key = "weekly_schedule" ->
  expandSnapshotPolicy (<[key := VSlice (first :: others)]> data)
  = expandSnapshotPolicy (<[key := VSlice [first]]> data).
Proof.
  intros [-> | [-> | [-> | ->]]]; unfold expandSnapshotPolicy, whenPresent, whenBlock;
    rewrite ?lookup_insert_eq, ?lookup_insert_ne by discriminate; reflexivity.
Qed.

End Conversion_properties.

Lemma expandSnapshotPolicy_ignores_other_keys_witness :
  expandSnapshotPolicy (<["comment" := VString "nightly"]> (asBlocks <$> snapshotPolicyMap Scenario.nightly))
  = Some Scenario.nightly.
Proof.
  rewrite (expandSnapshotPolicy_ignores_other_keys _ "comment" (VString "nightly"))
    by discriminate.
  vm_compute. reflexivity.
Defined.

Lemma expandSnapshotPolicy_reads_first_block_witness :
  expandSnapshotPolicy
    (<["hourly_schedule" :=
         VSlice [VMap {[ "minute" := VInt 15 ]}; VString "not a block"]]> ∅)
  = Some (snapshotPolicy.mk false dailySchedule.zero (hourlySchedule.mk 15 0)
            monthlySchedule.zero weeklySchedule.zero).
Proof.
  rewrite (expandSnapshotPolicy_reads_first_block ∅ "hourly_schedule");
    [vm_compute; reflexivity | right; left; reflexivity].
Defined.

(** ** The further properties on concrete runs *)

Lemma flaky_after (first after : Z * bytes * option error)
    (post : event volumeRequest.t) (h : list (event volumeRequest.t))
    (method baseURL : string) (params : option volumeRequest.t) :
  answer (Backend := Scenario.flaky [first] after) (post :: h) method baseURL params
  = match post with Call _ _ _ => after | Sleep _ => nth (Fixture.callsMade h) [first] after end.
Proof. cbn. destruct post; [|reflexivity]. destruct (Fixture.callsMade h); reflexivity. Qed.



(** A control plane that cannot be reached: the create and the delete end
    after their one call with the error of the transport. *)
Lemma transport_error_is_never_retried_witness :
  let backend := Scenario.flaky [] Scenario.unreachable in
  let request := Fixture.wanted "vol-a" "token-1" in
  createVolume Fixture.client request "Volumes" []
  = ((resolveNetwork Fixture.client request,
      (createVolumeResult.zero, Some (errorString "dial tcp: connection refused"))),
     [submission Fixture.client request "Volumes"])
  /\ deleteVolume Fixture.client request []
     = (Some (errorString "dial tcp: connection refused"), [removal request]).
Proof.
  intros backend request.
  destruct (transport_error_is_never_retried (backend := backend))
    as (Hcreate & Hdelete & _ & _).
  split.
  - apply (Hcreate Fixture.client request "Volumes" [] request [] 0 ""); reflexivity.
  - apply (Hdelete Fixture.client request [] 0 ""); reflexivity.
Defined.

(** Job exhaustion with status 500 once, then the same body with status
    200 for ever: the create gives up after eleven submissions and reports
    no error. *)
Lemma createVolume_exhaustion_without_error_witness :
  let backend :=
    Scenario.flaky [(500, Fixture.busyCreating, None)] (200, Fixture.busyCreating, None) in
  let request := Fixture.wanted "vol-a" "token-1" in
  let post := submission Fixture.client request "Volumes" in
  exists waits : list Z,
    createVolume Fixture.client request "Volumes" []
    = ((resolveNetwork Fixture.client request, (createVolumeResult.zero, None)),
       post :: turns post waits)
    /\ length waits = 10%nat.
Proof.
  intros backend request post.
  destruct (createVolume_exhaustion_without_error (backend := backend)
              Fixture.client request "Volumes" [] request [] eq_refl)
    as (waits & Hrun & Hlen).
  - eexists. split; [reflexivity|]. split; reflexivity.
  - intros h. unfold backend. cbn [app]. cbn zeta. rewrite flaky_after. unfold post, submission.
    eexists. split; [split; reflexivity|]. split; reflexivity.
  - exists waits. auto.
Defined.

(** A delete answered 200 with the envelope of code 0 succeeds after its
    one call. *)
Lemma deleteVolume_accepted_witness :
  let backend := Fixture.scripted [] (200, Fixture.done) in
  let request := Fixture.wanted "vol-a" "token-1" in
  (deleteVolume Fixture.client request []).1 = None
  /\ (deleteVolume Fixture.client request []).2 = [removal request].
Proof.
  intros backend request.
  destruct (deleteVolume_accepted (backend := backend) Fixture.client request [] 200
              Fixture.done eq_refl eq_refl) as (Hlog & Hiff & _).
  split; [apply Hiff; eexists; reflexivity | exact Hlog].
Defined.

(** A create without a token whose mint call is answered 500: the error
    of the response checker comes back and nothing is submitted. *)
Lemma createVolume_mint_failure_witness :
  let backend := Fixture.scripted [] (500, Fixture.diskFailure) in
  let request := Fixture.wanted "vol-a" "" in
  exists err,
    createVolume Fixture.client request "Volumes" []
    = ((request, (createVolumeResult.zero, Some err)), [mintCall request]).
Proof.
  intros backend request. eexists.
  apply (createVolume_mint_failure (backend := backend) Fixture.client request "Volumes" []);
    reflexivity.
Defined.

(** After SetProjectID with project-2, the create of a volume on the
    network default first submits the path of default in project-2. *)
Lemma createVolume_submits_in_the_set_project_witness :
  let backend := Fixture.scripted [] (200, Fixture.created) in
  let request := Fixture.wanted "vol-a" "token-1" in
  exists rest,
    (createVolume (SetProjectID Fixture.client "project-2") request "Volumes" []).2
    = Call "POST" "us-east4/Volumes"
        (Some (volumeRequest.set_Network "projects/project-2/global/networks/default" request))
      :: rest.
Proof.
  intros backend request.
  apply (createVolume_submits_in_the_set_project (backend := backend)
           Fixture.client "project-2" request "Volumes" []).
  discriminate.
Defined.

(** A read by id answered 404 returns the zero volume next to the error. *)
Lemma failure_comes_with_zero_value_witness :
  let backend := Fixture.scripted [] (404, Fixture.badGateway) in
  (getVolumeByID Fixture.client (Fixture.wanted "vol-a" "token-1") []).1.1
  = volumeResult.zero.
Proof.
  intros backend.
  destruct (failure_comes_with_zero_value (backend := backend) Fixture.client
              (Fixture.wanted "vol-a" "token-1") "Volumes" []) as (Hread & _).
  apply Hread. discriminate.
Defined.

(** ** The first response of a create, when it is accepted *)
Section Accepted_properties.
Context {Params : Type} {backend : Backend Params}.

(** X23.  A create whose first response passes the response checker submits
    once, never sleeps, and returns the body decoded as a
    createVolumeResult; when the body does not decode, it returns the zero
    result with the error of the decoder itself. *)
Theorem createVolume_accepted (c : Client.t) (request : volumeRequest.t)
    (volType : string) (log : list (event Params))
    (request1 : volumeRequest.t) (log1 : list (event Params))
    (statusCode : Z) (response : bytes) :
  atFirstSubmission c request log = Some (request1, log1) ->
  answer log1 "POST" (volumeRequest.Region request1 +:+ "/" +:+ volType)
         (Some (structs_Map (resolveNetwork c request1)))
    = (statusCode, response, None) ->
  apiResponseChecker statusCode response "createVolume" = None ->
  (createVolume c request volType log).2 = log1 ++ [submission c request1 volType]
  /\ (forall result,
        json_Unmarshal (A := createVolumeResult.t) response = Success result ->
        (createVolume c request volType log).1.2 = (result, None))
  /\ (forall err,
        json_Unmarshal (A := createVolumeResult.t) response = Failure err ->
        (createVolume c request volType log).1.2 = (createVolumeResult.zero, Some err)).
Proof.
  intros Hfirst Hanswer Hstatus.
  rewrite (createVolume_from_first_submission _ _ _ _ _ _ Hfirst).
  unfold submitVolume, bind, CallAPIMethod, ret. cbn zeta.
  change (volumeRequest.Region (resolveNetwork c request1))
    with (volumeRequest.Region request1).
  rewrite Hanswer, Hstatus. unfold decodeCreated. cbn.
  split; [reflexivity|]. split; intros x ->; reflexivity.
Qed.

End Accepted_properties.

(** A create answered 200 with the success envelope returns the volume id
    of the envelope after its one submission. *)
Lemma createVolume_accepted_witness :
  let backend := Fixture.scripted [] (200, Fixture.created) in
  let request := Fixture.wanted "vol-a" "token-1" in
  (createVolume Fixture.client request "Volumes" []).1.2
  = (createVolumeResult.mk (listVolumeJobIDResult.mk (listVolumeIDResult.mk "vol-1")) 0 "",
     None).
Proof.
  intros backend request.
  destruct (createVolume_accepted (backend := backend) Fixture.client request "Volumes" []
              request [] 200 Fixture.created eq_refl eq_refl eq_refl) as (_ & Hdecoded & _).
  apply Hdecoded. reflexivity.
Defined.
